(** * infinity_firestore: typed field references, query builder, repository

    A shallow embedding of [src/infinity_firestore/repository.py] and
    [src/infinity_firestore/model.py].

    Python objects that have an identity and are mutated in place (the
    query builder, the repository with its lazily created client) live in
    a heap of locations; the query objects of the Firestore client live
    there too, so that aliasing between the builder and what [build]
    hands out is visible.  Calls that can raise are computations in a
    state-and-exception monad over the whole world (heap, store contents,
    random source, trace of store calls and log records). *)

From stdpp Require Import base option list gmap strings fin_maps pretty.
From Stdlib Require Import ZArith.

Local Open Scope Z_scope.

(** ** Python classes and values *)

(** The classes a field annotation or a filter value can refer to.  A user
    class names its base, so subclassing (an [Enum] on [str], [bool] on
    [int]) is part of the model. *)
Inductive pyclass : Type :=
| c_object
| c_NoneType
| c_bool
| c_int
| c_float
| c_str
| c_date
| c_datetime
| c_user (name : string) (base : pyclass).

#[global] Instance pyclass_eq_dec : EqDecision pyclass.
Proof. solve_decision. Defined.

(** Method resolution order: the class followed by its ancestors. *)
Fixpoint mro (c : pyclass) : list pyclass :=
  match c with
  | c_object => [c_object]
  | c_bool => [c_bool; c_int; c_object]
  | c_datetime => [c_datetime; c_date; c_object]
  | c_user _ base => c :: mro base
  | _ => [c; c_object]
  end.

(** Runtime values.  [VObj c n] is an instance of class [c] whose state is
    not inspected by this code (a float, a list, a nested model, ...). *)
Inductive pyval : Type :=
| VNone
| VBool (b : bool)
| VInt (n : Z)
| VStr (s : string)
| VDatetime (micros : Z)
| VObj (c : pyclass) (state : Z).

#[global] Instance pyval_eq_dec : EqDecision pyval.
Proof. solve_decision. Defined.

Definition type_of (v : pyval) : pyclass :=
  match v with
  | VNone => c_NoneType
  | VBool _ => c_bool
  | VInt _ => c_int
  | VStr _ => c_str
  | VDatetime _ => c_datetime
  | VObj c _ => c
  end.

(** [issubclass(type(v), c)], the default [type.__instancecheck__]. *)
Definition instance_of (v : pyval) (c : pyclass) : bool :=
  bool_decide (c ∈ mro (type_of v)).

(** A Python dict with string keys. *)
Abbreviation dict := (gmap string pyval).

(** ** Exceptions *)

Inductive type_tag : Type :=
| TClass (c : pyclass)   (* a class object *)
| TAny.                  (* [typing.Any] *)

#[global] Instance type_tag_eq_dec : EqDecision type_tag.
Proof. solve_decision. Defined.

Inductive field_error : Type :=
| Missing (field : string)
| Invalid (field : string) (input : pyval).

#[global] Instance field_error_eq_dec : EqDecision field_error.
Proof. solve_decision. Defined.

Inductive message : Type :=
| MsgMismatch (value : pyval) (expected : type_tag)
    (* f"Value {value} does not match field type {field.type_}" *)
| MsgIsinstanceAny
    (* "typing.Any cannot be used with isinstance()" *)
| MsgNoField (name : string) (model : string)
    (* f"Field '{name}' does not exist in model {model}" *)
| MsgNoAttribute (class_ : string) (name : string).
    (* "'<class_>' object has no attribute '<name>'" *)

#[global] Instance message_eq_dec : EqDecision message.
Proof. solve_decision. Defined.

Inductive exn : Type :=
| TypeError (m : message)
| AttributeError (m : message)
| ValueError (what : string)
| ValidationError (model : string) (errors : list field_error)
| Conflict (collection : string) (doc_id : string)
| InvalidArgument (what : string)
| RecursionError.

#[global] Instance exn_eq_dec : EqDecision exn.
Proof. solve_decision. Defined.

Inductive result (A : Type) : Type :=
| Ok (a : A)
| Raise (e : exn).
Arguments Ok {A} & a.
Arguments Raise {A} e.

(** [isinstance(value, type_)]: an ordinary class is looked up in the MRO
    of the value's class; [typing.Any] refuses the check
    ([_AnyMeta.__instancecheck__], and [_SpecialForm.__instancecheck__]
    before Python 3.11, raise [TypeError]). *)
Definition isinstance (value : pyval) (t : type_tag) : result bool :=
  match t with
  | TClass c => Ok (instance_of value c)
  | TAny => Raise (TypeError MsgIsinstanceAny)
  end.

(** ** Field annotations and [safe_annotation] *)

Inductive py_annotation : Type :=
| AnnNone                   (* the annotation is [None] *)
| AnnClass (c : pyclass)    (* a class: [int], [str], [datetime], a model *)
| AnnAny                    (* [typing.Any] *)
| AnnSpecial (repr : string).
    (* anything else: [Optional[int]], [int | None], [List[str]], a
       forward reference, ... *)

#[global] Instance py_annotation_eq_dec : EqDecision py_annotation.
Proof. solve_decision. Defined.

(** [safe_annotation]: [None] gives [object]; a class or [typing.Any] is
    returned as it is; every other annotation falls back to [object]. *)
Definition safe_annotation (annotation : py_annotation) : type_tag :=
  match annotation with
  | AnnNone => TClass c_object
  | AnnClass c => TClass c
  | AnnAny => TAny
  | AnnSpecial _ => TClass c_object
  end.

(** ** Model classes (what the code reads of a pydantic class) *)

Inductive field_default : Type :=
| Required
| Default (v : pyval)
| DefaultFactory (make : nat → pyval).
    (* the factory's result at the n-th draw of the random source/clock *)

Record FieldInfo : Type := {
  annotation : py_annotation;
  default_ : field_default;
}.

Record ModelClass : Type := {
  __name__ : string;
  model_fields : list (string * FieldInfo);   (* a dict, in its order *)
}.

(** ** [FieldPath] and [FieldRef] *)

Record FieldPath : Type := {
  name : string;
  type_ : type_tag;
}.

Definition FieldPath__str__ (self : FieldPath) : string := name self.

(** What an attribute of a [FieldRef] object can hold. *)
Inductive attr : Type :=
| AModel (cls : ModelClass)
| AField (p : FieldPath).

(** A [FieldRef] object is its instance dictionary. *)
Abbreviation FieldRef := (gmap string attr).

(** What attribute access on a [FieldRef] object gives: a value of the
    instance dictionary, or what Python finds under that name on the
    class of the object (a method, the docstring, ...). *)
Inductive found : Type :=
| Own (a : attr)
| Inherited (attr_name : string).

Coercion Own : attr >-> found.

(** The names of the class body of [FieldRef] (lines 38-53). *)
Definition FieldRef_body : list string :=
  ["__module__"; "__doc__"; "__init__"; "__getattr__"].

(** The names a [FieldRef] object gets from the Python runtime: those of
    [Generic] and [object] and those the creation of the class adds
    ([_is_protocol], [__class__], [__dict__], [__eq__], ...).  They
    depend on the version of Python. *)
Class Python : Type := {
  inherited : string → bool;
}.

(** The names Python finds on the class of a [FieldRef] object. *)
Definition on_class `{Python} (attr_name : string) : bool :=
  bool_decide (attr_name ∈ FieldRef_body) || inherited attr_name.

Definition setattr (self : FieldRef) (attr_name : string) (a : attr) : FieldRef :=
  <[attr_name := a]> self.

(** One turn of the loop of [FieldRef.__init__]:
    [safe_type = safe_annotation(field_info.annotation)] and
    [setattr(self, field_name, FieldPath(field_name, safe_type))]. *)
Definition declare (self : FieldRef) (entry : string * FieldInfo) : FieldRef :=
  let '(field_name, field_info) := entry in
  let safe_type := safe_annotation (annotation field_info) in
  setattr self field_name (AField {| name := field_name; type_ := safe_type |}).

Definition FieldRef__init__ (model_class : ModelClass) : FieldRef :=
  foldl declare (setattr ∅ "model_class" (AModel model_class)) (model_fields model_class).

(** [FieldRef.__getattr__], called by Python only after the normal lookup
    failed: [super().__getattribute__(name)] fails again and the handler
    builds its message from [self.model_class.__name__]. *)
Definition FieldRef__getattr__ (self : FieldRef) (attr_name : string) : result found :=
  match self !! "model_class" with
  | Some (AModel cls) => Raise (AttributeError (MsgNoField attr_name (__name__ cls)))
  | Some (AField _) => Raise (AttributeError (MsgNoAttribute "FieldPath" "__name__"))
  | None => Raise RecursionError
  end.

(** Attribute access [fields.<attr_name>]: the instance dictionary, then
    the class, then [__getattr__].  (Python looks for a data descriptor
    of the class before the instance dictionary; the names of the class
    all begin with an underscore, which no pydantic field name does, so
    the two never hold the same name.) *)
Definition getattr `{Python} (self : FieldRef) (attr_name : string) : result found :=
  match self !! attr_name with
  | Some a => Ok (Own a)
  | None =>
      if on_class attr_name then Ok (Inherited attr_name)
      else FieldRef__getattr__ self attr_name
  end.

(** ** The document store and the Firestore client *)

Record FieldFilter : Type := {
  field_path : string;
  op_string : string;
  value : pyval;
}.

#[global] Instance FieldFilter_eq_dec : EqDecision FieldFilter.
Proof. solve_decision. Defined.

(** A query of the client library: the collection it scans, its filters,
    its orderings and its limit. *)
Record Query : Type := {
  _parent : string;
  _field_filters : list FieldFilter;
  _orders : list (string * string);
  _limit : option Z;
}.

#[global] Instance Query_eq_dec : EqDecision Query.
Proof. solve_decision. Defined.

Definition ASCENDING : string := "ASCENDING".
Definition DESCENDING : string := "DESCENDING".

(** What [stream] and [get] hand back for one document.  [_data] holds
    the values as the client decodes them; the conversion the service
    applies to a written value (a naive [datetime] comes back
    timezone-aware) is not modelled, so nothing below compares a record
    read back with the record that was written. *)
Record DocumentSnapshot : Type := {
  id : string;
  exists_ : bool;
  _data : dict;
}.

(** [DocumentSnapshot.to_dict]: a copy of the data, [None] for a document
    that does not exist. *)
Definition to_dict (doc : DocumentSnapshot) : option dict :=
  if exists_ doc then Some (_data doc) else None.

(** Truth value of [dict | None]: [None] and the empty dict are false. *)
Definition truthy (data : option dict) : bool :=
  match data with
  | Some d => negb (bool_decide (d = ∅))
  | None => false
  end.

(** A document that [execute] keeps: its map is there and not empty. *)
Definition nonempty (doc : DocumentSnapshot) : bool := truthy (to_dict doc).

(** The parts of google-cloud-firestore this code relies on and does not
    define: which filters and orderings the client accepts when a query
    is built, what a filter selects and how orderings sort when a query
    is streamed, and the random identifiers of [_auto_id]. *)
Class Firestore : Type := {
  filter_accepted : FieldFilter → bool;
  order_accepted : string → string → bool;
  filter_matches : FieldFilter → DocumentSnapshot → bool;
  sort_docs : list (string * string) → list DocumentSnapshot → list DocumentSnapshot;
  _auto_id : nat → string;
}.

(** pydantic's validation of one field value against its annotation
    ([None]: the value is rejected) and the conversion [model_dump]
    applies to a field value. *)
Class Pydantic : Type := {
  validate_field : py_annotation → pyval → option pyval;
  dump_value : pyval → pyval;
}.

(** [datetime.utcnow] at the n-th draw. *)
Class Clock : Type := {
  utcnow : nat → Z;
}.

(** ** Objects, the world, and the monad of Python calls *)

Abbreviation loc := positive.

Record Client : Type := {
  database : option string;
}.

Record FirestoreQueryBuilder : Type := {
  _query : loc;
  fields : FieldRef;
}.

Record FirestoreRepository : Type := {
  collection_name : string;
  model_class : ModelClass;
  _db : option Client;
}.

Inductive obj : Type :=
| OCollection (collection_id : string)   (* a CollectionReference *)
| OQuery (q : Query)
| OBuilder (b : FirestoreQueryBuilder)
| ORepository (r : FirestoreRepository).

Inductive log_message : Type :=
| Created (collection doc_id : string)
| FailedCreate (collection : string) (e : exn)
| FailedGet (collection doc_id : string) (e : exn)
| FailedList (collection : string) (e : exn)
| FailedQuery (collection : string) (e : exn).

Inductive event : Type :=
| RpcStream (q : Query)
| RpcGet (collection doc_id : string)
| RpcCreate (collection doc_id : string) (data : dict)
| LogInfo (m : log_message)
| LogError (m : log_message).

Record world : Type := {
  heap : gmap loc obj;
  collections : gmap string (list DocumentSnapshot);
  drawn : nat;             (* draws taken from the random source/clock *)
  trace : list event;      (* store calls and log records, oldest first *)
}.

Definition M (A : Type) : Type := world → world * result A.

#[global] Instance M_ret : MRet M := λ A a w, (w, Ok a).
#[global] Instance M_bind : MBind M := λ A B k m w,
  match m w with
  | (w', Ok a) => k a w'
  | (w', Raise e) => (w', Raise e)
  end.
#[global] Instance M_throw : MThrow exn M := λ A e w, (w, Raise e).

Definition lift {A} (r : result A) : M A := λ w, (w, r).

Definition logged (e : event) (w : world) : world :=
  {| heap := heap w; collections := collections w; drawn := drawn w;
     trace := trace w ++ [e] |}.

Definition emit (e : event) : M unit := λ w, (logged e w, Ok tt).

Definition advanced (w : world) : world :=
  {| heap := heap w; collections := collections w; drawn := S (drawn w);
     trace := trace w |}.

Definition draw : M nat := λ w, (advanced w, Ok (drawn w)).

Definition set_heap (h : gmap loc obj) (w : world) : world :=
  {| heap := h; collections := collections w; drawn := drawn w; trace := trace w |}.

Definition set_collections (c : gmap string (list DocumentSnapshot)) (w : world) : world :=
  {| heap := heap w; collections := c; drawn := drawn w; trace := trace w |}.

(** A new object gets a location no object has. *)
Definition alloc (o : obj) : M loc := λ w,
  let l := fresh (dom (heap w)) in
  (set_heap (<[l := o]> (heap w)) w, Ok l).

Definition store (l : loc) (o : obj) : M unit := λ w,
  (set_heap (<[l := o]> (heap w)) w, Ok tt).

Definition load (l : loc) : M (option obj) := λ w, (w, Ok (heap w !! l)).

(** [try: body  except Exception as e: logger.error(...); raise] *)
Definition logging_errors {A} (describe : exn → log_message) (body : M A) : M A :=
  λ w, match body w with
       | (w', Raise e) =>
           match emit (LogError (describe e)) w' with
           | (w'', _) => (w'', Raise e)
           end
       | r => r
       end.

Definition ask : M world := λ w, (w, Ok w).

Definition docs_of (w : world) (collection_id : string) : list DocumentSnapshot :=
  default [] (collections w !! collection_id).

(** An instance of a model class: its class and its field values. *)
Record BaseModel : Type := {
  __class__ : ModelClass;
  __dict__ : dict;
}.

(** Truth value of [int | None]. *)
Definition int_truthy (n : option Z) : bool :=
  match n with
  | Some k => negb (k =? 0)
  | None => false
  end.

Section Program.
Context `{Firestore, Pydantic, Clock}.

(** *** The client library's query objects

    [where], [order_by] and [limit] of google-cloud-firestore never
    change the query they are called on: each returns a copy carrying
    one more constraint ([BaseQuery._copy]); a [CollectionReference]
    first makes an unconstrained query over itself. *)

Definition collection_query (collection_id : string) : Query :=
  {| _parent := collection_id; _field_filters := []; _orders := []; _limit := None |}.

Definition query_of (o : obj) : option Query :=
  match o with
  | OCollection c => Some (collection_query c)
  | OQuery q => Some q
  | _ => None
  end.

Definition Query_where (q : Query) (filter : FieldFilter) : result Query :=
  if filter_accepted filter
  then Ok {| _parent := _parent q; _field_filters := _field_filters q ++ [filter];
             _orders := _orders q; _limit := _limit q |}
  else Raise (ValueError "filter").

Definition Query_order_by (q : Query) (path direction : string) : result Query :=
  if order_accepted path direction
  then Ok {| _parent := _parent q; _field_filters := _field_filters q;
             _orders := _orders q ++ [(path, direction)]; _limit := _limit q |}
  else Raise (ValueError "order").

Definition Query_limit (q : Query) (count : Z) : Query :=
  {| _parent := _parent q; _field_filters := _field_filters q;
     _orders := _orders q; _limit := Some count |}.

(** What the store answers to a scan: the documents of the collection,
    in the store's order, that pass every filter, sorted when there is
    an ordering, cut at the limit; a negative limit is refused. *)
Definition select (q : Query) (docs : list DocumentSnapshot) : result (list DocumentSnapshot) :=
  let hits := List.filter (λ doc, forallb (λ f, filter_matches f doc) (_field_filters q)) docs in
  let sorted := match _orders q with [] => hits | os => sort_docs os hits end in
  match _limit q with
  | None => Ok sorted
  | Some n => if n <? 0 then Raise (InvalidArgument "limit") else Ok (take (Z.to_nat n) sorted)
  end.

Definition stream (q : Query) : M (list DocumentSnapshot) :=
  emit (RpcStream q);;
  w ← ask;
  lift (select q (docs_of w (_parent q))).

Definition find_doc (docs : list DocumentSnapshot) (doc_id : string) : option DocumentSnapshot :=
  List.find (λ d, bool_decide (id d = doc_id) && exists_ d) docs.

(** The snapshot [get] answers with: the stored document, or one that
    reports it does not exist. *)
Definition snapshot_of (docs : list DocumentSnapshot) (doc_id : string) : DocumentSnapshot :=
  default {| id := doc_id; exists_ := false; _data := ∅ |} (find_doc docs doc_id).

(** [collection.document(doc_id).get()] *)
Definition DocumentReference_get (collection_id doc_id : string) : M DocumentSnapshot :=
  emit (RpcGet collection_id doc_id);;
  w ← ask;
  mret (snapshot_of (docs_of w collection_id) doc_id).

(** [doc_ref.create(data)]: refused when the document exists. *)
Definition DocumentReference_create (collection_id doc_id : string) (data : dict) : M unit :=
  emit (RpcCreate collection_id doc_id data);;
  w ← ask;
  let docs := docs_of w collection_id in
  if bool_decide (is_Some (find_doc docs doc_id))
  then mthrow (Conflict collection_id doc_id)
  else λ w', (set_collections
                (<[collection_id := docs ++ [{| id := doc_id; exists_ := true; _data := data |}]]>
                   (collections w')) w', Ok tt).

(** The world once a new document was written. *)
Definition written (w : world) (collection_id doc_id : string) (data : dict) : world :=
  set_collections
    (<[collection_id := docs_of w collection_id ++
         [{| id := doc_id; exists_ := true; _data := data |}]]> (collections w)) w.

(** *** pydantic: [model_dump] and the model constructor *)

Definition model_dump (model : BaseModel) (exclude : gset string) : dict :=
  filter (λ kv, kv.1 ∉ exclude) (dump_value <$> __dict__ model).

(** Validation visits every declared field, takes its input from the
    keyword arguments or else its default, and collects the errors. *)
Fixpoint validate_fields (fs : list (string * FieldInfo)) (data : dict)
  : M (list field_error * dict) :=
  match fs with
  | [] => mret ([], ∅)
  | (field_name, info) :: rest =>
      r ← match data !! field_name with
          | Some input =>
              match validate_field (annotation info) input with
              | Some v => mret (inr v)
              | None => mret (inl (Invalid field_name input))
              end
          | None =>
              match default_ info with
              | Required => mret (inl (Missing field_name))
              | Default v => mret (inr v)
              | DefaultFactory make => n ← draw; mret (inr (make n))
              end
          end;
      rest' ← validate_fields rest data;
      mret (match r with
            | inl e => (e :: rest'.1, rest'.2)
            | inr v => (rest'.1, <[field_name := v]> rest'.2)
            end)
  end.

(** The constructor call of a model class on keyword arguments [data];
    keys that are no declared field are ignored. *)
Definition construct (cls : ModelClass) (data : dict) : M BaseModel :=
  r ← validate_fields (model_fields cls) data;
  match r.1 with
  | [] => mret {| __class__ := cls; __dict__ := r.2 |}
  | errors => mthrow (ValidationError (__name__ cls) errors)
  end.

(** The base class of [model.py]. *)
Definition Model : ModelClass :=
  {| __name__ := "Model";
     model_fields :=
       [("id", {| annotation := AnnClass c_str;
                  default_ := DefaultFactory (λ n, VStr (_auto_id n)) |});
        ("created_at", {| annotation := AnnClass c_datetime;
                          default_ := DefaultFactory (λ n, VDatetime (utcnow n)) |});
        ("updated_at", {| annotation := AnnClass c_datetime;
                          default_ := DefaultFactory (λ n, VDatetime (utcnow n)) |})] |}.

(** *** [FirestoreQueryBuilder] *)

Definition the_builder (self : loc) : M FirestoreQueryBuilder :=
  o ← load self;
  match o with
  | Some (OBuilder b) => mret b
  | _ => mthrow (AttributeError (MsgNoAttribute "object" "_query"))
  end.

Definition the_query (l : loc) : M Query :=
  o ← load l;
  match o ≫= query_of with
  | Some q => mret q
  | None => mthrow (AttributeError (MsgNoAttribute "object" "where"))
  end.

Definition FirestoreQueryBuilder__init__ (collection : loc) (fields : FieldRef) : M loc :=
  alloc (OBuilder {| _query := collection; fields := fields |}).

(** The query object a builder is bound to, read through the heap. *)
Definition bound_query (w : world) (b : FirestoreQueryBuilder) : option Query :=
  heap w !! _query b ≫= query_of.

(** The world after a builder was rebound to a new query object. *)
Definition rebound (w : world) (self : loc) (b : FirestoreQueryBuilder) (q : Query) : world :=
  let l := fresh (dom (heap w)) in
  set_heap (<[self := OBuilder {| _query := l; fields := fields b |}]>
              (<[l := OQuery q]> (heap w))) w.

(** [where]; the name is a keyword of Rocq.  The client's [where] gives
    a new query object ([alloc]) and the assignment to [self._query]
    rebinds the builder to it ([store]). *)
Definition where_ (self : loc) (field : FieldPath) (op : string) (value : pyval) : M loc :=
  ok ← lift (isinstance value (type_ field));
  if negb ok
  then mthrow (TypeError (MsgMismatch value (type_ field)))
  else
    b ← the_builder self;
    q ← the_query (_query b);
    q' ← lift (Query_where q {| field_path := FieldPath__str__ field;
                                op_string := op; value := value |});
    l ← alloc (OQuery q');
    store self (OBuilder {| _query := l; fields := fields b |});;
    mret self.

Definition order_by (self : loc) (field : FieldPath) (direction : string) : M loc :=
  b ← the_builder self;
  q ← the_query (_query b);
  q' ← lift (Query_order_by q (FieldPath__str__ field) direction);
  l ← alloc (OQuery q');
  store self (OBuilder {| _query := l; fields := fields b |});;
  mret self.

Definition limit (self : loc) (count : Z) : M loc :=
  b ← the_builder self;
  q ← the_query (_query b);
  l ← alloc (OQuery (Query_limit q count));
  store self (OBuilder {| _query := l; fields := fields b |});;
  mret self.

Definition build (self : loc) : M loc :=
  b ← the_builder self;
  mret (_query b).

(** The list comprehension of [execute]. *)
Fixpoint decoded {T} (from_dict_func : option dict → string → M T)
    (docs : list DocumentSnapshot) : M (list T) :=
  match docs with
  | [] => mret []
  | doc :: rest =>
      if truthy (to_dict doc)
      then r ← from_dict_func (to_dict doc) (id doc);
           rs ← decoded from_dict_func rest;
           mret (r :: rs)
      else decoded from_dict_func rest
  end.

Definition execute {T} (self : loc) (from_dict_func : option dict → string → M T)
  : M (list T) :=
  d ← build self;
  q ← the_query d;
  docs ← stream q;
  decoded from_dict_func docs.
End Program.

Section Repository.
Context `{Firestore, Pydantic, Clock}.

Definition get_firestore_client (database : option string) : Client :=
  {| database := database |}.

Definition FirestoreRepository__init__ (collection_name : string) (model_class : ModelClass)
  : M loc :=
  alloc (ORepository {| collection_name := collection_name;
                        model_class := model_class; _db := None |}).

Definition the_repository (self : loc) : M FirestoreRepository :=
  o ← load self;
  match o with
  | Some (ORepository r) => mret r
  | _ => mthrow (AttributeError (MsgNoAttribute "object" "collection_name"))
  end.

(** The [db] property: the client is created at the first use. *)
Definition db (self : loc) : M Client :=
  r ← the_repository self;
  match _db r with
  | Some c => mret c
  | None =>
      let c := get_firestore_client None in
      store self (ORepository {| collection_name := collection_name r;
                                 model_class := model_class r; _db := Some c |});;
      mret c
  end.

(** The [collection] property; a collection reference is identified by
    the collection's name. *)
Definition collection (self : loc) : M string :=
  db self;;
  r ← the_repository self;
  mret (collection_name r).

Definition Repository_fields (self : loc) : M FieldRef :=
  r ← the_repository self;
  mret (FieldRef__init__ (model_class r)).

Definition _to_dict (model : BaseModel) : dict :=
  let data := model_dump model {["id"]} in
  foldl (λ data '(key, value),
           if instance_of value c_datetime then <[key := value]> data else data)
        data (map_to_list data).

Definition _from_dict (self : loc) (data : option dict) (doc_id : string) : M BaseModel :=
  let data := if truthy data then default ∅ data else ∅ in
  let data := <["id" := VStr doc_id]> data in
  r ← the_repository self;
  construct (model_class r) data.

Definition create (self : loc) (model : BaseModel) : M BaseModel :=
  r ← the_repository self;
  logging_errors (FailedCreate (collection_name r))
    (let data := _to_dict model in
     c ← collection self;
     n ← draw;
     let doc_id := _auto_id n in
     DocumentReference_create c doc_id data;;
     let model_dict := <["id" := VStr doc_id]> (model_dump model ∅) in
     result ← construct (model_class r) model_dict;
     emit (LogInfo (Created (collection_name r) doc_id));;
     mret result).

Definition get_by_id (self : loc) (doc_id : string) : M (option BaseModel) :=
  r ← the_repository self;
  logging_errors (FailedGet (collection_name r) doc_id)
    (c ← collection self;
     doc ← DocumentReference_get c doc_id;
     if negb (exists_ doc) then mret None
     else m ← _from_dict self (to_dict doc) doc_id; mret (Some m)).

(** The query [list_all] scans. *)
Definition listed (name : string) (limit : option Z) : Query :=
  if int_truthy limit then Query_limit (collection_query name) (default 0 limit)
  else collection_query name.

Definition list_all (self : loc) (limit : option Z) : M (list BaseModel) :=
  r ← the_repository self;
  logging_errors (FailedList (collection_name r))
    (c ← collection self;
     docs ← stream (listed c limit);
     mapM (λ doc, _from_dict self (to_dict doc) (id doc)) docs).

Definition query (self : loc) (builder : loc) : M (list BaseModel) :=
  r ← the_repository self;
  logging_errors (FailedQuery (collection_name r))
    (execute builder (_from_dict self)).
(** The world once the repository at [self] has its client. *)
Definition with_client (w : world) (self : loc) (r : FirestoreRepository) : world :=
  match _db r with
  | Some _ => w
  | None =>
      set_heap (<[self := ORepository {| collection_name := collection_name r;
                                         model_class := model_class r;
                                         _db := Some (get_firestore_client None) |}]>
                  (heap w)) w
  end.

(** [model] with its identifier replaced. *)
Definition with_id (model : BaseModel) (doc_id : string) : BaseModel :=
  {| __class__ := __class__ model;
     __dict__ := <["id" := VStr doc_id]> (__dict__ model) |}.

(** Every declared field finds in [data] an input that validation
    turns into the value [target] holds for it. *)
Definition accepted (fs : list (string * FieldInfo)) (data target : dict) : Prop :=
  Forall (λ entry, ∃ x v, data !! entry.1 = Some x ∧
                          validate_field (annotation entry.2) x = Some v ∧
                          target !! entry.1 = Some v) fs.

(** A valid record holds values for declared fields only, one for
    every declared field, and each is a value that validation gives
    back when it is dumped and validated again. *)
Definition valid_record (model : BaseModel) : Prop :=
  dom (__dict__ model) ⊆ list_to_set (model_fields (__class__ model)).*1 ∧
  Forall (λ entry, ∃ v, __dict__ model !! entry.1 = Some v ∧
                        validate_field (annotation entry.2) (dump_value v) = Some v)
         (model_fields (__class__ model)).

(** The record type declares an identifier field that takes the
    string [doc_id] as it is. *)
Definition id_accepted (cls : ModelClass) (doc_id : string) : Prop :=
  "id" ∈ (model_fields cls).*1 ∧
  Forall (λ entry, entry.1 = "id" →
                   validate_field (annotation entry.2) (VStr doc_id) = Some (VStr doc_id))
         (model_fields cls).
End Repository.

(** ** A concrete environment, for running the program

    A client that accepts the ten Firestore operators and the two
    directions, a store that evaluates equality filters and keeps its own
    order, and a pydantic that accepts a value exactly when it is an
    instance of the annotated class. *)

Definition operators : list string :=
  ["=="; "!="; "<"; "<="; ">"; ">="; "in"; "not-in"; "array-contains";
   "array-contains-any"].

Definition digits (n : nat) : string := pretty n.

Definition demo_store : Firestore := {|
  filter_accepted f := bool_decide (op_string f ∈ operators);
  order_accepted _ direction := bool_decide (direction ∈ [ASCENDING; DESCENDING]);
  filter_matches f doc :=
    if bool_decide (op_string f = "==")
    then bool_decide (_data doc !! field_path f = Some (value f))
    else true;
  sort_docs _ docs := docs;
  _auto_id n := String.append "auto" (digits n);
|}.

Definition demo_pydantic : Pydantic := {|
  validate_field a v :=
    match isinstance v (safe_annotation a) with
    | Ok true => Some v
    | _ => if bool_decide (a = AnnAny) then Some v else None
    end;
  dump_value v := v;
|}.

Definition demo_clock : Clock := {| utcnow n := Z.of_nat n |}.

(** The runtime names of a recent CPython 3 (the list varies a little
    with the version). *)
Definition demo_python : Python := {|
  inherited n := bool_decide (n ∈
    ["__orig_bases__"; "__parameters__"; "__dict__"; "__weakref__";
     "__class_getitem__"; "__init_subclass__"; "_is_protocol"; "__slots__";
     "__class__"; "__delattr__"; "__dir__"; "__eq__"; "__format__"; "__ge__";
     "__getattribute__"; "__getstate__"; "__gt__"; "__hash__"; "__le__"; "__lt__";
     "__ne__"; "__new__"; "__reduce__"; "__reduce_ex__"; "__repr__"; "__setattr__";
     "__sizeof__"; "__str__"; "__subclasshook__"]);
|}.

Section Examples.
#[local] Existing Instances demo_store demo_pydantic demo_clock.

(** The record type of the specification's scenarios, with two more
    fields whose annotations are not plain classes. *)
Definition User : ModelClass :=
  {| __name__ := "User";
     model_fields := model_fields Model ++
       [("name", {| annotation := AnnClass c_str; default_ := Required |});
        ("age", {| annotation := AnnClass c_int; default_ := Required |});
        ("nickname", {| annotation := AnnSpecial "Optional[str]"; default_ := Default VNone |});
        ("payload", {| annotation := AnnAny; default_ := Default VNone |})] |}.

Definition ageField : FieldPath := {| name := "age"; type_ := TClass c_int |}.
Definition nameField : FieldPath := {| name := "name"; type_ := TClass c_str |}.

Definition alice : BaseModel :=
  {| __class__ := User;
     __dict__ := list_to_map
       [("id", VStr "client-side-id"); ("created_at", VDatetime 1000);
        ("updated_at", VDatetime 2000); ("name", VStr "Alice"); ("age", VInt 30);
        ("nickname", VNone); ("payload", VNone)] |}.

Definition snapshot (doc_id : string) (data : list (string * pyval)) : DocumentSnapshot :=
  {| id := doc_id; exists_ := true; _data := list_to_map data |}.

Definition users : list DocumentSnapshot :=
  [snapshot "u1" [("name", VStr "Ann"); ("age", VInt 41);
                  ("created_at", VDatetime 1); ("updated_at", VDatetime 2)];
   snapshot "u2" [];
   {| id := "u3"; exists_ := false; _data := ∅ |};
   snapshot "u4" [("name", VStr "Bob"); ("age", VInt 17);
                  ("created_at", VDatetime 3); ("updated_at", VDatetime 4)]].

(** A world with the [users] collection, a collection reference at
    location 1, a builder over it at 2 and a repository at 3. *)
Definition w0 : world :=
  {| heap := list_to_map
       [(1%positive, OCollection "users");
        (2%positive, OBuilder {| _query := 1%positive; fields := FieldRef__init__ User |});
        (3%positive, ORepository {| collection_name := "users"; model_class := User;
                                    _db := None |})];
     collections := {[ "users" := users ]};
     drawn := 0;
     trace := [] |}.

Definition the_filter : FieldFilter :=
  {| field_path := "age"; op_string := ">="; value := VInt 18 |}.

(** A decoder that cannot fail: the identifier and the number of
    fields of the raw map. *)
Definition summary (raw : option dict) (doc_id : string) : M (string * nat) :=
  mret (doc_id, size (default ∅ raw)).

Definition users_repository : FirestoreRepository :=
  {| collection_name := "users"; model_class := User; _db := None |}.
End Examples.

(** ** Finding, updating and deleting

    [find_by_field], [find_by_fields], [update] and [delete_] raise and
    record what the operations above never do: the store's [NotFound],
    the calls [update] and [delete] of a document reference, and log
    lines of their own.  These live in types of their own, layered over
    the world: a session is the world together with a journal, and a
    journal entry carries the length the world's trace had when the
    entry was written, so that the order of all records is kept. *)

Inductive failure : Type :=
| Earlier (e : exn)
| NotFound (collection doc_id : string).

Inductive journal_message : Type :=
| Updated (collection doc_id : string)
| FailedUpdate (collection doc_id : string) (f : failure)
| Deleted (collection doc_id : string)
| FailedDelete (collection doc_id : string) (f : failure)
| FailedFind (collection field : string) (f : failure)
| FailedFindFields (collection : string) (fields : list (string * pyval)).

Inductive journal_entry : Type :=
| RpcUpdate (collection doc_id : string) (data : dict)
| RpcDelete (collection doc_id : string)
| JournalInfo (m : journal_message)
| JournalError (m : journal_message).

Record session : Type := {
  world_of : world;
  journal : list (nat * journal_entry);
}.

Inductive outcome (A : Type) : Type :=
| Done (a : A)
| Failed (f : failure).
Arguments Done {A} a.
Arguments Failed {A} f.

Definition N (A : Type) : Type := session → session * outcome A.

#[global] Instance N_ret : MRet N := λ A a s, (s, Done a).
#[global] Instance N_bind : MBind N := λ A B k m s,
  match m s with
  | (s', Done a) => k a s'
  | (s', Failed f) => (s', Failed f)
  end.
#[global] Instance N_throw : MThrow failure N := λ A f s, (s, Failed f).

Definition outcome_of {A} (r : result A) : outcome A :=
  match r with
  | Ok a => Done a
  | Raise e => Failed (Earlier e)
  end.

(** A computation of the earlier kind, run on the session's world. *)
Definition earlier {A} (m : M A) : N A := λ s,
  ({| world_of := (m (world_of s)).1; journal := journal s |},
   outcome_of (m (world_of s)).2).

Definition noted (e : journal_entry) (s : session) : session :=
  {| world_of := world_of s;
     journal := journal s ++ [(length (trace (world_of s)), e)] |}.

Definition note (e : journal_entry) : N unit := λ s, (noted e s, Done tt).

(** [try: body  except Exception as e: logger.error(...); raise] *)
Definition noting_errors {A} (describe : failure → journal_message) (body : N A) : N A :=
  λ s, match body s with
       | (s', Failed f) => (noted (JournalError (describe f)) s', Failed f)
       | r => r
       end.

(** The session in which the collection [collection_id] holds [docs]. *)
Definition holding (collection_id : string) (docs : list DocumentSnapshot) (s : session)
  : session :=
  {| world_of := set_collections (<[collection_id := docs]> (collections (world_of s)))
                   (world_of s);
     journal := journal s |}.

Definition is_document (doc_id : string) (d : DocumentSnapshot) : bool :=
  bool_decide (id d = doc_id) && exists_ d.

(** [doc_ref.update(data)]: refused when the document does not exist;
    the fields of [data] replace or join those of the document. *)
Definition merged (doc_id : string) (data : dict) (d : DocumentSnapshot) : DocumentSnapshot :=
  if is_document doc_id d
  then {| id := id d; exists_ := true; _data := data ∪ _data d |}
  else d.

Definition merge_into (collection_id doc_id : string) (data : dict) : N unit := λ s,
  let docs := docs_of (world_of s) collection_id in
  if existsb (is_document doc_id) docs
  then (holding collection_id (merged doc_id data <$> docs) s, Done tt)
  else (s, Failed (NotFound collection_id doc_id)).

Definition DocumentReference_update (collection_id doc_id : string) (data : dict) : N unit :=
  note (RpcUpdate collection_id doc_id data);;
  merge_into collection_id doc_id data.

(** [doc_ref.delete()]: no error when there is no such document. *)
Definition remove_from (collection_id doc_id : string) : N unit := λ s,
  let docs := docs_of (world_of s) collection_id in
  (holding collection_id (List.filter (λ d, negb (bool_decide (id d = doc_id))) docs) s,
   Done tt).

Definition DocumentReference_delete (collection_id doc_id : string) : N unit :=
  note (RpcDelete collection_id doc_id);;
  remove_from collection_id doc_id.

Section Finding.
Context `{Firestore, Pydantic, Clock}.

(** The loop of [find_by_fields]: one equality filter per keyword. *)
Fixpoint narrowed (q : Query) (fields : list (string * pyval)) : result Query :=
  match fields with
  | [] => Ok q
  | (field, value) :: rest =>
      match Query_where q {| field_path := field; op_string := "=="; value := value |} with
      | Ok q' => narrowed q' rest
      | Raise e => Raise e
      end
  end.

Definition find_by_field (self : loc) (field : string) (value : pyval) : N (list BaseModel) :=
  r ← earlier (the_repository self);
  noting_errors (FailedFind (collection_name r) field)
    (earlier
       (c ← collection self;
        q ← lift (Query_where (collection_query c)
                    {| field_path := field; op_string := "=="; value := value |});
        docs ← stream q;
        decoded (_from_dict self) docs)).

(** The keyword arguments are a dict: distinct names, in call order. *)
Definition find_by_fields (self : loc) (fields : list (string * pyval)) : N (list BaseModel) :=
  r ← earlier (the_repository self);
  noting_errors (λ _, FailedFindFields (collection_name r) fields)
    (earlier
       (c ← collection self;
        q ← lift (narrowed (collection_query c) fields);
        docs ← stream q;
        decoded (_from_dict self) docs)).

(** [datetime.now(tz=timezone.utc)] is a reading of the same clock as
    [datetime.utcnow]; a [VDatetime] does not record the time zone. *)
Definition update (self : loc) (doc_id : string) (model : BaseModel) : N BaseModel :=
  r ← earlier (the_repository self);
  noting_errors (FailedUpdate (collection_name r) doc_id)
    (let data := _to_dict model in
     n ← earlier draw;
     let data := <["updated_at" := VDatetime (utcnow n)]> data in
     c ← earlier (collection self);
     DocumentReference_update c doc_id data;;
     let model_dict := model_dump model ∅ in
     let model_dict := <["id" := VStr doc_id]> model_dict in
     let model_dict := <["updated_at" := default VNone (data !! "updated_at")]> model_dict in
     result ← earlier (construct (model_class r) model_dict);
     note (JournalInfo (Updated (collection_name r) doc_id));;
     mret result).

(** [delete]; the name is taken by the map operation of stdpp. *)
Definition delete_ (self : loc) (doc_id : string) : N bool :=
  r ← earlier (the_repository self);
  noting_errors (FailedDelete (collection_name r) doc_id)
    (c ← earlier (collection self);
     DocumentReference_delete c doc_id;;
     note (JournalInfo (Deleted (collection_name r) doc_id));;
     mret true).

(** [model] with its identifier and its [updated_at] replaced. *)
Definition touched (model : BaseModel) (doc_id : string) (now : pyval) : BaseModel :=
  {| __class__ := __class__ model;
     __dict__ := <["updated_at" := now]> (<["id" := VStr doc_id]> (__dict__ model)) |}.

(** The record type declares [updated_at] and it takes [now] as it is. *)
Definition stamp_accepted (cls : ModelClass) (now : pyval) : Prop :=
  "updated_at" ∈ (model_fields cls).*1 ∧
  Forall (λ entry, entry.1 = "updated_at" →
                   validate_field (annotation entry.2) now = Some now)
         (model_fields cls).
End Finding.

(** A computation keeps an observation [f] of the world when [f] reads
    the same before and after it, whatever the outcome. *)
Definition keeps {A B} (f : world → B) (m : M A) : Prop := ∀ w, f (m w).1 = f w.

(** The session [s] with its world replaced. *)
Definition on (w : world) (s : session) : session :=
  {| world_of := w; journal := journal s |}.

(** The filters [find_by_fields] builds from its keywords. *)
Definition equality_filters (fields : list (string * pyval)) : list FieldFilter :=
  (λ kv, {| field_path := kv.1; op_string := "=="; value := kv.2 |}) <$> fields.

(** The documents that pass every filter of a list. *)
Definition passing `{Firestore} (filters : list FieldFilter) (docs : list DocumentSnapshot)
  : list DocumentSnapshot :=
  List.filter (λ doc, forallb (λ f, filter_matches f doc) filters) docs.

(** Two worlds are alike for the repository at [self] when they have
    drawn as often and hold at [self] repositories of one model class. *)
Definition alike (self : loc) (w1 w2 : world) : Prop :=
  drawn w1 = drawn w2 ∧
  ∃ r1 r2, heap w1 !! self = Some (ORepository r1) ∧
           heap w2 !! self = Some (ORepository r2) ∧
           model_class r1 = model_class r2.

(** A computation that cannot tell such worlds apart: it gives the same
    outcome in both and leaves them alike. *)
Definition blind {A} (self : loc) (m : M A) : Prop :=
  ∀ w1 w2, alike self w1 w2 → (m w1).2 = (m w2).2 ∧ alike self (m w1).1 (m w2).1.

(** A session that starts on [w] with an empty journal. *)
Definition opening (w : world) : session := {| world_of := w; journal := [] |}.

Section MoreExamples.
#[local] Existing Instances demo_store demo_pydantic demo_clock.

(** A record type with a field that is called like the attribute in
    which a [FieldRef] keeps its record type. *)
Definition Deployment : ModelClass :=
  {| __name__ := "Deployment";
     model_fields := model_fields Model ++
       [("model_class", {| annotation := AnnClass c_str; default_ := Required |})] |}.

(** The world [w0] once the repository at 3 has its client. *)
Definition w0_connected : world := with_client w0 3 users_repository.

Definition users_builder : FirestoreQueryBuilder :=
  {| _query := 1%positive; fields := FieldRef__init__ User |}.

Definition by_name : list (string * pyval) := [("name", VStr "Ann")].

(** A record type whose identifier is a number, and a repository of it
    at location 4. *)
Definition Counter : ModelClass :=
  {| __name__ := "Counter";
     model_fields := [("id", {| annotation := AnnClass c_int; default_ := Required |})] |}.

Definition counter : BaseModel :=
  {| __class__ := Counter; __dict__ := {[ "id" := VInt 1 ]} |}.

Definition counters_repository : FirestoreRepository :=
  {| collection_name := "counters"; model_class := Counter; _db := None |}.

Definition w_counters : world :=
  {| heap := {[ 4%positive := ORepository counters_repository ]};
     collections := ∅; drawn := 0; trace := [] |}.

(** The world [w0] in which a document already has the identifier that
    will be drawn next. *)
Definition w_taken : world :=
  set_collections {[ "users" := users ++ [snapshot "auto0" [("name", VStr "Eve")]] ]} w0.
End MoreExamples.

(** * Properties *)

Ltac run :=
  unfold mbind, M_bind, mret, M_ret, mthrow, M_throw, lift, load, store, alloc,
    emit, ask, draw in *; simpl in *.

(** ** Stepping through a computation *)

Lemma bind_ok {A B} (m : M A) (k : A → M B) (w w' : world) (a : A) :
  m w = (w', Ok a) → (m ≫= k) w = k a w'.
Proof. intros Hm. unfold mbind, M_bind. by rewrite Hm. Qed.

Lemma bind_raise {A B} (m : M A) (k : A → M B) (w w' : world) (e : exn) :
  m w = (w', Raise e) → (m ≫= k) w = (w', Raise e).
Proof. intros Hm. unfold mbind, M_bind. by rewrite Hm. Qed.

Lemma lift_run {A} (r : result A) (w : world) : lift r w = (w, r).
Proof. done. Qed.

Lemma ret_run {A} (a : A) (w : world) : mret (M := M) a w = (w, Ok a).
Proof. done. Qed.

Lemma throw_run {A} (e : exn) (w : world) : mthrow (M := M) (A := A) e w = (w, Raise e).
Proof. done. Qed.

(** ** Every value is an [object] *)

Lemma mro_object (c : pyclass) : c_object ∈ mro c.
Proof. induction c; simpl; set_solver. Qed.

Lemma instance_of_object (v : pyval) : instance_of v c_object = true.
Proof. apply bool_decide_eq_true, mro_object. Qed.

(** ** Typed field references *)

Section FieldRefFacts.
Implicit Types (fs : list (string * FieldInfo)) (self : FieldRef).

Lemma declare_other fs self (k : string) :
  k ∉ fs.*1 → foldl declare self fs !! k = self !! k.
Proof.
  revert self. induction fs as [|[f i] fs IH]; intros self Hk; simpl; [done|].
  rewrite fmap_cons, not_elem_of_cons in Hk. destruct Hk as [Hne Hk].
  rewrite IH by done. unfold declare, setattr. simpl in *.
  by rewrite lookup_insert_ne.
Qed.

Lemma declare_field fs self (f : string) (info : FieldInfo) :
  NoDup fs.*1 → (f, info) ∈ fs →
  foldl declare self fs !! f
  = Some (AField {| name := f; type_ := safe_annotation (annotation info) |}).
Proof.
  revert self. induction fs as [|[g i] fs IH]; intros self Hnd Hin; simpl.
  - by apply elem_of_nil in Hin.
  - rewrite fmap_cons in Hnd. apply NoDup_cons in Hnd as [Hg Hnd].
    apply elem_of_cons in Hin as [Heq|Hin].
    + inversion Heq; subst. rewrite declare_other by done.
      unfold declare, setattr. simpl. by rewrite lookup_insert_eq.
    + by apply IH.
Qed.
End FieldRefFacts.

Section FieldRefClaims.
Context `{Python}.

(** C6 (as amended).  For a record type [T] (whose field names, the keys
    of a dict, are distinct), the [FieldRef] built for [T] answers every
    declared field [f] with a handle whose name is [f] and whose declared
    type is the annotation itself when that is a class, and the fallback
    [object] when the annotation is absent or is no type (what the handle
    carries for [typing.Any] is left out here).  When [T] declares no
    field called [model_class], looking up a name that is neither
    declared, nor [model_class], nor found by Python on the class of the
    object raises [AttributeError] naming the attempted name and [T]; a
    name found on the class is answered from the class. *)
Theorem FieldRef_handles (T : ModelClass) :
  NoDup (model_fields T).*1 →
  (∀ f info, (f, info) ∈ model_fields T →
     ∃ p, getattr (FieldRef__init__ T) f = Ok (AField p) ∧ name p = f ∧
          (∀ c, annotation info = AnnClass c → type_ p = TClass c) ∧
          (annotation info = AnnNone ∨ (∃ repr, annotation info = AnnSpecial repr) →
           type_ p = TClass c_object)) ∧
  ("model_class" ∉ (model_fields T).*1 →
   ∀ n, n ∉ (model_fields T).*1 → n ≠ "model_class" →
     getattr (FieldRef__init__ T) n
     = if on_class n then Ok (Inherited n)
       else Raise (AttributeError (MsgNoField n (__name__ T)))).
Proof.
  intros Hnd. split.
  - intros f info Hin. eexists. unfold getattr.
    unfold FieldRef__init__. rewrite (declare_field _ _ f info) by done.
    split; [done|]. split; [done|]. simpl. split.
    + by intros c ->.
    + by intros [->|[repr ->]].
  - intros Hmc n Hn Hne. unfold getattr, FieldRef__getattr__.
    unfold FieldRef__init__. rewrite !declare_other by done.
    unfold setattr. rewrite lookup_insert_ne by done.
    by rewrite lookup_empty, lookup_insert_eq.
Qed.
End FieldRefClaims.

Section FieldRefScenarios.
#[local] Existing Instance demo_python.

Lemma User_fields_distinct : NoDup (model_fields User).*1.
Proof. apply (bool_decide_unpack _). by vm_compute. Qed.

Lemma FieldRef_handles_witness :
  (∃ p, getattr (FieldRef__init__ User) "age" = Ok (AField p) ∧ name p = "age" ∧
        type_ p = TClass c_int) ∧
  getattr (FieldRef__init__ User) "zip" = Raise (AttributeError (MsgNoField "zip" "User")) ∧
  getattr (FieldRef__init__ User) "__init__" = Ok (Inherited "__init__").
Proof.
  destruct (FieldRef_handles User User_fields_distinct) as [Hdecl Hundecl]. split.
  - destruct (Hdecl "age" {| annotation := AnnClass c_int; default_ := Required |})
      as (p & Hp & Hname & Hclass & _); [by apply (list_elem_of_lookup_2 _ 4%nat)|].
    exists p. split; [done|]. split; [done|]. by apply Hclass.
  - split.
    + rewrite Hundecl; [done| | |done]; apply (bool_decide_unpack _); by vm_compute.
    + rewrite Hundecl; [done| | |done]; apply (bool_decide_unpack _); by vm_compute.
Defined.

(** C6, counterexample.  [model_class] is not a field of [User], yet
    looking it up on the [FieldRef] of [User] raises nothing: it answers
    the attribute in which [__init__] keeps the record type. *)
Lemma FieldRef_model_class_is_no_error :
  ("model_class" ∉ (model_fields User).*1) ∧
  getattr (FieldRef__init__ User) "model_class" = Ok (AModel User).
Proof. split; [apply (bool_decide_unpack _); by vm_compute | by vm_compute]. Qed.
End FieldRefScenarios.

(** ** The query builder *)

Section BuilderFacts.
Context `{Firestore}.
Implicit Types (w : world) (self d : loc) (b : FirestoreQueryBuilder) (q : Query).

Lemma the_builder_ok w self b :
  heap w !! self = Some (OBuilder b) → the_builder self w = (w, Ok b).
Proof. intros Hb. unfold the_builder. run. by rewrite Hb. Qed.

Lemma the_query_ok w b q :
  bound_query w b = Some q → the_query (_query b) w = (w, Ok q).
Proof. unfold bound_query, the_query. run. by intros ->. Qed.


Lemma fresh_loc_unused w : heap w !! fresh (dom (heap w)) = None.
Proof. apply not_elem_of_dom, is_fresh. Qed.

Lemma rebound_builder w self b q :
  heap (rebound w self b q) !! self
  = Some (OBuilder {| _query := fresh (dom (heap w)); fields := fields b |}).
Proof. unfold rebound. simpl. by rewrite lookup_insert_eq. Qed.

Lemma rebound_query w self b q :
  heap w !! self = Some (OBuilder b) →
  heap (rebound w self b q) !! fresh (dom (heap w)) = Some (OQuery q).
Proof.
  intros Hb. unfold rebound. simpl.
  rewrite lookup_insert_ne, lookup_insert_eq; [done|].
  intros ->. by rewrite fresh_loc_unused in Hb.
Qed.

(** Rebinding touches the builder and a new location only. *)
Lemma rebound_frame w self b q l :
  l ≠ self → is_Some (heap w !! l) → heap (rebound w self b q) !! l = heap w !! l.
Proof.
  intros Hne [o Ho]. unfold rebound. simpl.
  rewrite !lookup_insert_ne; [done| |done].
  intros <-. by rewrite fresh_loc_unused in Ho.
Qed.

Lemma where_ok w self b q field op v :
  heap w !! self = Some (OBuilder b) → bound_query w b = Some q →
  isinstance v (type_ field) = Ok true →
  filter_accepted {| field_path := name field; op_string := op; value := v |} = true →
  where_ self field op v w
  = (rebound w self b
       {| _parent := _parent q;
          _field_filters := _field_filters q ++
            [{| field_path := name field; op_string := op; value := v |}];
          _orders := _orders q; _limit := _limit q |}, Ok self).
Proof.
  intros Hb Hq Hi Hf. unfold where_.
  unfold mbind at 1, M_bind at 1, lift at 1. rewrite Hi. simpl.
  unfold mbind at 1, M_bind at 1. rewrite (the_builder_ok _ _ _ Hb).
  unfold mbind at 1, M_bind at 1. rewrite (the_query_ok _ _ _ Hq).
  unfold Query_where, FieldPath__str__. rewrite Hf. by run.
Qed.

Lemma order_by_ok w self b q field direction :
  heap w !! self = Some (OBuilder b) → bound_query w b = Some q →
  order_accepted (name field) direction = true →
  order_by self field direction w
  = (rebound w self b
       {| _parent := _parent q; _field_filters := _field_filters q;
          _orders := _orders q ++ [(name field, direction)];
          _limit := _limit q |}, Ok self).
Proof.
  intros Hb Hq Hf. unfold order_by.
  unfold mbind at 1, M_bind at 1. rewrite (the_builder_ok _ _ _ Hb).
  unfold mbind at 1, M_bind at 1. rewrite (the_query_ok _ _ _ Hq).
  unfold Query_order_by, FieldPath__str__. rewrite Hf. by run.
Qed.

Lemma limit_ok w self b q count :
  heap w !! self = Some (OBuilder b) → bound_query w b = Some q →
  limit self count w = (rebound w self b (Query_limit q count), Ok self).
Proof.
  intros Hb Hq. unfold limit.
  unfold mbind at 1, M_bind at 1. rewrite (the_builder_ok _ _ _ Hb).
  unfold mbind at 1, M_bind at 1. rewrite (the_query_ok _ _ _ Hq).
  by run.
Qed.

Lemma build_ok w self b :
  heap w !! self = Some (OBuilder b) → build self w = (w, Ok (_query b)).
Proof.
  intros Hb. unfold build. unfold mbind, M_bind. by rewrite (the_builder_ok _ _ _ Hb).
Qed.
End BuilderFacts.

Section BuilderClaims.
Context `{Firestore}.
Implicit Types (w : world) (self d : loc) (b : FirestoreQueryBuilder) (q : Query).

(** C1.  When the declared type of the field is a class and the value
    is not an instance of it, [where] raises [TypeError] carrying the
    value and the expected type, and the world is left as it was: no
    store call, no new query object, the builder bound as before. *)
Theorem where_type_mismatch w self (field : FieldPath) (op : string) (v : pyval)
    (c : pyclass) :
  type_ field = TClass c → instance_of v c = false →
  where_ self field op v w = (w, Raise (TypeError (MsgMismatch v (TClass c)))).
Proof.
  intros Ht Hi. unfold where_. destruct field as [n t]. simpl in *. subst.
  run. by rewrite Hi.
Qed.







(** C7.  On a builder bound to a query [q], the chain
    [where(...).order_by(...).limit(n)] with a value of the field's
    type, a filter and an ordering the client accepts, returns the
    builder itself at each of the three calls, and [build] then yields
    one query object carrying the filters of [q] followed by the new
    filter, the orderings of [q] followed by the new pair, and the
    limit [n]. *)
Theorem chain_accumulates w self b q (field ofield : FieldPath) (op direction : string)
    (v : pyval) (n : Z) :
  heap w !! self = Some (OBuilder b) → bound_query w b = Some q →
  isinstance v (type_ field) = Ok true →
  filter_accepted {| field_path := name field; op_string := op; value := v |} = true →
  order_accepted (name ofield) direction = true →
  ∃ w' d,
    (b1 ← where_ self field op v;
     b2 ← order_by b1 ofield direction;
     b3 ← limit b2 n;
     d ← build b3;
     mret (b1, b2, b3, d)) w = (w', Ok (self, self, self, d)) ∧
    heap w' !! d = Some (OQuery
      {| _parent := _parent q;
         _field_filters := _field_filters q ++
           [{| field_path := name field; op_string := op; value := v |}];
         _orders := _orders q ++ [(name ofield, direction)];
         _limit := Some n |}).
Proof.
  intros Hb Hq Hi Hf Ho.
  erewrite bind_ok by by apply where_ok.
  set (q1 := Build_Query _ _ _ _). set (w1 := rebound w self b q1).
  set (b1 := {| _query := fresh (dom (heap w)); fields := fields b |}).
  assert (Hb1 : heap w1 !! self = Some (OBuilder b1)) by apply rebound_builder.
  assert (Hq1 : bound_query w1 b1 = Some q1).
  { unfold bound_query. cbn [_query b1]. unfold w1. by rewrite rebound_query. }
  erewrite bind_ok by by apply order_by_ok.
  set (q2 := Build_Query _ _ _ _). set (w2 := rebound w1 self b1 q2).
  set (b2 := {| _query := fresh (dom (heap w1)); fields := fields b1 |}).
  assert (Hb2 : heap w2 !! self = Some (OBuilder b2)) by apply rebound_builder.
  assert (Hq2 : bound_query w2 b2 = Some q2).
  { unfold bound_query. cbn [_query b2]. unfold w2. by rewrite rebound_query. }
  erewrite bind_ok by by apply limit_ok.
  set (w3 := rebound w2 self b2 (Query_limit q2 n)).
  set (b3 := {| _query := fresh (dom (heap w2)); fields := fields b2 |}).
  assert (Hb3 : heap w3 !! self = Some (OBuilder b3)) by apply rebound_builder.
  erewrite bind_ok by by apply build_ok.
  eexists _, _. split; [reflexivity|]. cbn [_query b3]. unfold w3.
  by rewrite rebound_query.
Qed.
End BuilderClaims.

Section BuilderScenarios.
#[local] Existing Instances demo_store demo_pydantic demo_clock.
#[local] Existing Instance demo_python.

Lemma where_type_mismatch_witness :
  where_ 2 ageField ">=" (VStr "18") w0
  = (w0, Raise (TypeError (MsgMismatch (VStr "18") (TClass c_int)))).
Proof. apply where_type_mismatch; reflexivity. Defined.

(** The scenario of the specification: an [int] passes on [age], a
    [str] does not, and an [int] does not pass on [name]. *)
Example where_scenario :
  (where_ 2 ageField ">=" (VInt 18) w0).2 = Ok 2%positive ∧
  (where_ 2 ageField ">=" (VStr "18") w0).2
    = Raise (TypeError (MsgMismatch (VStr "18") (TClass c_int))) ∧
  (where_ 2 nameField "==" (VInt 42) w0).2
    = Raise (TypeError (MsgMismatch (VInt 42) (TClass c_str))).
Proof. by vm_compute. Qed.



(** C3.  A field annotated [typing.Any] gets [typing.Any] itself as its
    declared type, and [where] on such a field raises [TypeError] for
    every value: [isinstance] refuses [typing.Any]. *)
Theorem where_on_Any_field_raises (w : world) (self : loc) (op : string) (v : pyval) :
  getattr (FieldRef__init__ User) "payload"
    = Ok (AField {| name := "payload"; type_ := TAny |}) ∧
  where_ self {| name := "payload"; type_ := TAny |} op v w
    = (w, Raise (TypeError MsgIsinstanceAny)).
Proof. split; [vm_compute; reflexivity | reflexivity]. Qed.

(** The fallback to [object] does switch the check off: on a field
    whose annotation is [None] or no class at all, [where] never raises
    [TypeError]. *)
Lemma where_on_object_field (w : world) (self : loc) (f : string) (a : py_annotation)
    (op : string) (v : pyval) :
  a = AnnNone ∨ (∃ s, a = AnnSpecial s) →
  ∀ m, (where_ self {| name := f; type_ := safe_annotation a |} op v w).2
       ≠ Raise (TypeError m).
Proof.
  intros Ha m. assert (safe_annotation a = TClass c_object) as ->
    by (destruct Ha as [->|[s ->]]; done).
  unfold where_.
  erewrite bind_ok
    by (rewrite lift_run; cbn [type_ isinstance]; by rewrite instance_of_object).
  cbn [negb]. unfold the_builder, the_query, Query_where. run.
  repeat case_match; simplify_eq/=; done.
Qed.

Lemma chain_accumulates_witness :
  ∃ w' d,
    (b1 ← where_ 2 ageField ">=" (VInt 18);
     b2 ← order_by b1 nameField ASCENDING;
     b3 ← limit b2 10;
     d ← build b3;
     mret (b1, b2, b3, d)) w0 = (w', Ok (2, 2, 2, d)%positive) ∧
    heap w' !! d = Some (OQuery
      {| _parent := "users"; _field_filters := [] ++ [the_filter];
         _orders := [] ++ [("name", ASCENDING)]; _limit := Some 10 |}).
Proof.
  apply (chain_accumulates w0 2 {| _query := 1%positive; fields := FieldRef__init__ User |}
           (collection_query "users") ageField nameField ">=" ASCENDING (VInt 18) 10);
    reflexivity.
Defined.
End BuilderScenarios.

(** ** Executing a query *)

Section ExecuteFacts.
Context `{Firestore} {T : Type}.
Implicit Types (w : world) (docs : list DocumentSnapshot)
  (decode : option dict → string → M T).

Lemma mapM_cons {A B} (f : A → M B) (a : A) (l : list A) :
  mapM f (a :: l) = (y ← f a; k ← mapM f l; mret (y :: k)).
Proof. done. Qed.

Lemma mapM_pure {A B} (f : A → M B) (g : A → B) (l : list A) w :
  (∀ a w', f a w' = (w', Ok (g a))) → mapM f l w = (w, Ok (map g l)).
Proof.
  intros Hf. induction l as [|a l IH]; [done|].
  rewrite mapM_cons. erewrite bind_ok by apply Hf.
  erewrite bind_ok by apply IH. done.
Qed.

Lemma mapM_length {A B} (f : A → M B) (l : list A) w w' (out : list B) :
  mapM f l w = (w', Ok out) → length out = length l.
Proof.
  revert w out. induction l as [|a l IH]; intros w out.
  - change (mapM f [] w) with (w, Ok (@nil B)). intros ?; by simplify_eq.
  - rewrite mapM_cons. unfold mbind at 1, M_bind at 1.
    destruct (f a w) as [w1 [y|e]]; [|done].
    unfold mbind at 1, M_bind at 1.
    destruct (mapM f l w1) as [w2 [k|e]] eqn:Hk; [|done].
    rewrite ret_run. intros ?; simplify_eq. simpl. f_equal. by eapply IH.
Qed.

(** The comprehension decodes the documents with a non-empty map, one
    after the other, and nothing else. *)
Lemma decoded_filter decode docs w :
  decoded decode docs w
  = mapM (λ doc, decode (to_dict doc) (id doc)) (List.filter nonempty docs) w.
Proof.
  revert w. induction docs as [|doc docs IH]; intros w; [done|].
  simpl. unfold nonempty at 1. destruct (truthy (to_dict doc)); [|apply IH].
  rewrite mapM_cons. unfold mbind at 1 3, M_bind at 1 3.
  destruct (decode _ _ w) as [w1 [r|e]]; [|done].
  unfold mbind, M_bind. by rewrite IH.
Qed.

Lemma filter_sublist {A} (f : A → bool) (l : list A) : sublist (List.filter f l) l.
Proof.
  induction l as [|a l IH]; simpl; [constructor|].
  destruct (f a); by constructor.
Qed.

Lemma nonempty_spec (doc : DocumentSnapshot) :
  nonempty doc = true ↔ ∃ data, to_dict doc = Some data ∧ data ≠ ∅.
Proof.
  unfold nonempty, truthy. destruct (to_dict doc) as [d|].
  - rewrite negb_true_iff, bool_decide_eq_false. split.
    + intros Hd. by exists d.
    + by intros (? & [= <-] & Hd).
  - split; [done | by intros (? & ? & _)].
Qed.

Lemma stream_ok (q : Query) docs w :
  select q (docs_of w (_parent q)) = Ok docs →
  stream q w = (logged (RpcStream q) w, Ok docs).
Proof.
  intros Hs. unfold stream.
  erewrite bind_ok by reflexivity. erewrite bind_ok by reflexivity.
  rewrite lift_run. unfold docs_of in *. simpl. by rewrite Hs.
Qed.

(** C4.  When the store answers the scan of the built query with
    [docs], [execute] decodes, in that order, exactly the documents of
    [docs] whose raw map is present and not empty: it behaves as the
    decoder mapped over those documents (so an error can only come from
    decoding one of them), a document is among them exactly when it has
    a non-empty map, and with a decoder that cannot fail the result is
    the list of their decodings. *)
Theorem execute_decodes_nonempty w (self : loc) (b : FirestoreQueryBuilder) (q : Query)
    decode docs :
  heap w !! self = Some (OBuilder b) → bound_query w b = Some q →
  select q (docs_of w (_parent q)) = Ok docs →
  let kept := List.filter nonempty docs in
  let w1 := logged (RpcStream q) w in
  execute self decode w = mapM (λ doc, decode (to_dict doc) (id doc)) kept w1 ∧
  (∀ doc, doc ∈ kept ↔ doc ∈ docs ∧ ∃ data, to_dict doc = Some data ∧ data ≠ ∅) ∧
  sublist kept docs ∧
  (∀ g : option dict → string → T,
     (∀ raw i w', decode raw i w' = (w', Ok (g raw i))) →
     execute self decode w = (w1, Ok (map (λ doc, g (to_dict doc) (id doc)) kept))).
Proof.
  intros Hb Hq Hs kept w1.
  assert (Hrun : execute self decode w
                 = mapM (λ doc, decode (to_dict doc) (id doc)) kept w1).
  { unfold execute.
    erewrite bind_ok by by apply build_ok.
    erewrite bind_ok by by apply the_query_ok.
    erewrite bind_ok by by apply stream_ok.
    apply decoded_filter. }
  split; [done|]. split; [|split].
  - intros doc. unfold kept.
    by rewrite !list_elem_of_In, filter_In, nonempty_spec.
  - apply filter_sublist.
  - intros g Hg. rewrite Hrun. apply mapM_pure. intros doc w'. apply Hg.
Qed.
End ExecuteFacts.

Section ExecuteScenario.
#[local] Existing Instances demo_store demo_pydantic demo_clock.

Lemma execute_decodes_nonempty_witness :
  execute 2 summary w0
  = mapM (λ doc, summary (to_dict doc) (id doc)) (List.filter nonempty users)
      (logged (RpcStream (collection_query "users")) w0).
Proof.
  apply (execute_decodes_nonempty w0 2
           {| _query := 1%positive; fields := FieldRef__init__ User |}
           (collection_query "users") summary users); reflexivity.
Defined.

(** Of the four documents of [users], the one with an empty map and
    the one without a map are left out. *)
Example execute_scenario :
  (execute 2 summary w0).2 = Ok [("u1", 4%nat); ("u4", 4%nat)].
Proof. by vm_compute. Qed.
End ExecuteScenario.

(** ** Encoding and decoding records *)

Section RecordFacts.
Context `{Firestore, Pydantic, Clock}.
Implicit Types (w : world) (m : BaseModel) (data target : dict)
  (fs : list (string * FieldInfo)).

Lemma model_dump_all m : model_dump m ∅ = dump_value <$> __dict__ m.
Proof. unfold model_dump. apply map_filter_id. intros k v _. apply not_elem_of_empty. Qed.

Lemma model_dump_exclude_id m :
  model_dump m {["id"]} = delete "id" (dump_value <$> __dict__ m).
Proof.
  unfold model_dump. apply map_eq; intros k. apply option_eq; intros v.
  rewrite map_lookup_filter_Some, lookup_delete_Some. simpl.
  rewrite not_elem_of_singleton. split; intros [? ?]; split; congruence.
Qed.

(** Re-assigning to a key the value it already has changes nothing. *)
Lemma reassign_same data (items : list (string * pyval)) :
  (∀ k v, (k, v) ∈ items → data !! k = Some v) →
  foldl (λ data '(key, value),
           if instance_of value c_datetime then <[key := value]> data else data)
        data items = data.
Proof.
  induction items as [|[k v] items IH]; intros Hin; simpl; [done|].
  assert (data !! k = Some v) as Hk by (apply Hin; left).
  rewrite insert_id by done.
  destruct (instance_of v c_datetime); apply IH; intros; apply Hin; by right.
Qed.

Lemma _to_dict_dump m : _to_dict m = delete "id" (dump_value <$> __dict__ m).
Proof.
  unfold _to_dict. rewrite model_dump_exclude_id.
  apply reassign_same. intros k v. by rewrite elem_of_map_to_list.
Qed.

Lemma _to_dict_has_no_id m : _to_dict m !! "id" = None.
Proof. rewrite _to_dict_dump. apply lookup_delete_eq. Qed.

Lemma validate_fields_accepted fs data target w :
  accepted fs data target →
  ∃ out, validate_fields fs data w = (w, Ok ([], out)) ∧
         ∀ k, out !! k = if bool_decide (k ∈ fs.*1) then target !! k else None.
Proof.
  induction 1 as [|[f info] fs (x & v & Hx & Hv & Ht) _ (out & Hrun & Hout)].
  - exists ∅. split; [done|]. intros k. rewrite lookup_empty.
    by rewrite bool_decide_eq_false_2 by apply not_elem_of_nil.
  - exists (<[f := v]> out). split.
    + simpl in *. rewrite Hx, Hv.
      erewrite bind_ok by apply ret_run. erewrite bind_ok by apply Hrun. done.
    + intros k. rewrite fmap_cons. simpl in *.
      destruct (decide (k = f)) as [->|Hne].
      * rewrite lookup_insert_eq, bool_decide_eq_true_2; [done | left].
      * rewrite lookup_insert_ne, Hout by done.
        rewrite (bool_decide_ext (k ∈ f :: fs.*1) (k ∈ fs.*1)); [done|].
        rewrite elem_of_cons. split; [by intros [?|?] | by right].
Qed.

Lemma construct_accepted (cls : ModelClass) data target w :
  accepted (model_fields cls) data target →
  dom target ⊆ list_to_set (model_fields cls).*1 →
  construct cls data w = (w, Ok {| __class__ := cls; __dict__ := target |}).
Proof.
  intros Hacc Hdom.
  destruct (validate_fields_accepted _ _ _ w Hacc) as (out & Hrun & Hout).
  unfold construct. erewrite bind_ok by apply Hrun. simpl.
  rewrite ret_run. do 3 f_equal. apply map_eq; intros k. rewrite Hout.
  case_bool_decide as Hk; [done|]. symmetry. apply not_elem_of_dom.
  intros Hd. apply Hk. apply Hdom in Hd. by apply elem_of_list_to_set in Hd.
Qed.

(** Constructing from the dumped fields of a valid record, with the
    identifier set to [doc_id], gives the record with that identifier. *)
Lemma construct_with_id m data (doc_id : string) w :
  valid_record m → id_accepted (__class__ m) doc_id →
  (∀ k, k ≠ "id" → data !! k = dump_value <$> __dict__ m !! k) →
  construct (__class__ m) (<["id" := VStr doc_id]> data) w = (w, Ok (with_id m doc_id)).
Proof.
  intros [Hdom Hvalid] [Hid Hidok] Hdata. unfold with_id.
  apply construct_accepted.
  - unfold accepted. rewrite Forall_forall in *. intros [f info] Hin.
    specialize (Hvalid _ Hin) as (v & Hv & Hok). specialize (Hidok _ Hin).
    simpl in *. destruct (decide (f = "id")) as [->|Hne].
    + exists (VStr doc_id), (VStr doc_id). rewrite !lookup_insert_eq. auto.
    + exists (dump_value v), v. rewrite !lookup_insert_ne by done.
      rewrite Hdata, Hv by done. auto.
  - simpl. rewrite dom_insert_L. apply union_least; [|done].
    apply singleton_subseteq_l. by apply elem_of_list_to_set.
Qed.
End RecordFacts.

(** ** The repository *)

Section RepositoryFacts.
Context `{Firestore, Pydantic, Clock}.
Implicit Types (w : world) (self : loc) (r : FirestoreRepository) (m : BaseModel).

Lemma the_repository_ok w self r :
  heap w !! self = Some (ORepository r) → the_repository self w = (w, Ok r).
Proof. intros Hr. unfold the_repository. run. by rewrite Hr. Qed.

Lemma with_client_repository w self r :
  heap w !! self = Some (ORepository r) →
  ∃ r', heap (with_client w self r) !! self = Some (ORepository r') ∧
        model_class r' = model_class r ∧ collection_name r' = collection_name r.
Proof.
  intros Hr. unfold with_client. destruct (_db r).
  - by exists r.
  - eexists. simpl. by rewrite lookup_insert_eq.
Qed.

Lemma with_client_store w self r :
  collections (with_client w self r) = collections w ∧
  drawn (with_client w self r) = drawn w ∧
  trace (with_client w self r) = trace w.
Proof. unfold with_client. by destruct (_db r). Qed.

Lemma db_ok w self r :
  heap w !! self = Some (ORepository r) →
  db self w = (with_client w self r, Ok (default (get_firestore_client None) (_db r))).
Proof.
  intros Hr. unfold db, with_client.
  erewrite bind_ok by by apply the_repository_ok.
  by destruct (_db r).
Qed.

Lemma collection_ok w self r :
  heap w !! self = Some (ORepository r) →
  collection self w = (with_client w self r, Ok (collection_name r)).
Proof.
  intros Hr. unfold collection.
  erewrite bind_ok by by apply db_ok.
  destruct (with_client_repository _ _ _ Hr) as (r' & Hr' & _ & Hname).
  erewrite bind_ok by by apply the_repository_ok.
  by rewrite ret_run, Hname.
Qed.

Lemma _from_dict_run w self r (data : option dict) (doc_id : string) :
  heap w !! self = Some (ORepository r) →
  _from_dict self data doc_id w
  = construct (model_class r)
      (<["id" := VStr doc_id]> (if truthy data then default ∅ data else ∅)) w.
Proof.
  intros Hr. unfold _from_dict. by erewrite bind_ok by by apply the_repository_ok.
Qed.

Lemma logging_errors_ok {A} describe (body : M A) w w' (a : A) :
  body w = (w', Ok a) → logging_errors describe body w = (w', Ok a).
Proof. intros Hb. unfold logging_errors. by rewrite Hb. Qed.

Lemma logging_errors_raise {A} describe (body : M A) w w' (e : exn) :
  body w = (w', Raise e) →
  logging_errors describe body w = (logged (LogError (describe e)) w', Raise e).
Proof. intros Hb. unfold logging_errors. by rewrite Hb. Qed.

Lemma logging_errors_inv {A} describe (body : M A) w w' (a : A) :
  logging_errors describe body w = (w', Ok a) → body w = (w', Ok a).
Proof. unfold logging_errors. by destruct (body w) as [? [?|?]]. Qed.

Lemma logging_errors_bind {A B} describe (first : M A) (k : A → M B) w w' (a : A) :
  first w = (w', Ok a) →
  logging_errors describe (first ≫= k) w = logging_errors describe (k a) w'.
Proof. intros Hf. unfold logging_errors. by erewrite bind_ok by done. Qed.

(** C5.  For a valid record of the repository's type and an identifier
    its [id] field takes, [_to_dict] gives the dumped fields without
    [id] and nothing else changed, and [_from_dict] of that encoding
    and the identifier returns, without touching the world, the record
    with its [id] replaced by the identifier; that is the record itself
    when the identifier is the record's own. *)
Theorem decode_encode_roundtrip w self r m (doc_id : string) :
  heap w !! self = Some (ORepository r) → __class__ m = model_class r →
  valid_record m → id_accepted (__class__ m) doc_id →
  _to_dict m = delete "id" (dump_value <$> __dict__ m) ∧
  _from_dict self (Some (_to_dict m)) doc_id w = (w, Ok (with_id m doc_id)) ∧
  (__dict__ m !! "id" = Some (VStr doc_id) →
   _from_dict self (Some (_to_dict m)) doc_id w = (w, Ok m)).
Proof.
  intros Hr Hcls Hvalid Hid.
  assert (Hrun : _from_dict self (Some (_to_dict m)) doc_id w
                 = (w, Ok (with_id m doc_id))).
  { rewrite (_from_dict_run _ _ _ _ _ Hr), <- Hcls.
    assert ((if truthy (Some (_to_dict m)) then default ∅ (Some (_to_dict m)) else ∅)
            = _to_dict m) as ->.
    { simpl. by case_bool_decide. }
    apply construct_with_id; [done..|].
    intros k Hk. by rewrite _to_dict_dump, lookup_delete_ne, lookup_fmap. }
  split; [apply _to_dict_dump|]. split; [done|].
  intros Hown. rewrite Hrun. unfold with_id. rewrite insert_id by done.
  by destruct m.
Qed.
Lemma DocumentReference_get_ok w (c doc_id : string) :
  DocumentReference_get c doc_id w
  = (logged (RpcGet c doc_id) w, Ok (snapshot_of (docs_of w c) doc_id)).
Proof. done. Qed.

(** C8.  [get_by_id] asks the store for the document.  When the
    snapshot reports that the document does not exist the result is
    [None], and nothing is raised; when it exists the result is what
    [_from_dict] makes of the snapshot's map and [doc_id], and an error
    of the decoding is logged and raised again. *)
Theorem get_by_id_absent_or_decoded w self r (doc_id : string) :
  heap w !! self = Some (ORepository r) →
  let doc := snapshot_of (docs_of w (collection_name r)) doc_id in
  let w1 := logged (RpcGet (collection_name r) doc_id) (with_client w self r) in
  (exists_ doc = false → get_by_id self doc_id w = (w1, Ok None)) ∧
  (exists_ doc = true →
   match _from_dict self (to_dict doc) doc_id w1 with
   | (w2, Ok m) => get_by_id self doc_id w = (w2, Ok (Some m))
   | (w2, Raise e) =>
       get_by_id self doc_id w
       = (logged (LogError (FailedGet (collection_name r) doc_id e)) w2, Raise e)
   end).
Proof.
  intros Hr doc w1.
  assert (Hstep : get_by_id self doc_id w
            = logging_errors (FailedGet (collection_name r) doc_id)
                (if negb (exists_ doc) then mret None
                 else m ← _from_dict self (to_dict doc) doc_id; mret (Some m)) w1).
  { unfold get_by_id. erewrite bind_ok by by apply the_repository_ok.
    erewrite logging_errors_bind by by apply collection_ok.
    erewrite logging_errors_bind by apply DocumentReference_get_ok.
    unfold docs_of. by destruct (with_client_store w self r) as (-> & _ & _). }
  split; intros Hex; rewrite Hstep, Hex; cbn [negb].
  - by apply logging_errors_ok.
  - destruct (_from_dict self (to_dict doc) doc_id w1) as [w2 [m|e]] eqn:Hd.
    + apply logging_errors_ok. by erewrite bind_ok by done.
    + apply logging_errors_raise. by erewrite bind_raise by done.
Qed.
Lemma DocumentReference_create_run w (c doc_id : string) (data : dict) :
  DocumentReference_create c doc_id data w
  = if bool_decide (is_Some (find_doc (docs_of w c) doc_id))
    then (logged (RpcCreate c doc_id data) w, Raise (Conflict c doc_id))
    else (written (logged (RpcCreate c doc_id data) w) c doc_id data, Ok tt).
Proof.
  unfold DocumentReference_create.
  erewrite bind_ok by reflexivity. erewrite bind_ok by reflexivity.
  change (docs_of (logged (RpcCreate c doc_id data) w) c) with (docs_of w c).
  by destruct (bool_decide _).
Qed.

(** What [create] does, step by step. *)
Lemma create_run w self r m :
  heap w !! self = Some (ORepository r) →
  let name := collection_name r in
  let doc_id := _auto_id (drawn w) in
  let w1 := logged (RpcCreate name doc_id (_to_dict m)) (advanced (with_client w self r)) in
  create self m w
  = if bool_decide (is_Some (find_doc (docs_of w name) doc_id))
    then (logged (LogError (FailedCreate name (Conflict name doc_id))) w1,
          Raise (Conflict name doc_id))
    else match construct (model_class r) (<["id" := VStr doc_id]> (model_dump m ∅))
                 (written w1 name doc_id (_to_dict m)) with
         | (w2, Ok result) => (logged (LogInfo (Created name doc_id)) w2, Ok result)
         | (w2, Raise e) => (logged (LogError (FailedCreate name e)) w2, Raise e)
         end.
Proof.
  intros Hr name doc_id w1. unfold create.
  erewrite bind_ok by by apply the_repository_ok.
  erewrite logging_errors_bind by by apply collection_ok.
  erewrite logging_errors_bind by reflexivity.
  destruct (with_client_store w self r) as (Hc & Hd & _).
  rewrite Hd. fold name doc_id.
  pose proof (DocumentReference_create_run (advanced (with_client w self r))
                name doc_id (_to_dict m)) as Hcreate.
  assert (docs_of (advanced (with_client w self r)) name = docs_of w name) as Hdocs
    by (unfold docs_of; simpl; by rewrite Hc).
  rewrite Hdocs in Hcreate. fold w1 in Hcreate.
  destruct (bool_decide (is_Some (find_doc (docs_of w name) doc_id))).
  - apply logging_errors_raise. by erewrite bind_raise by done.
  - erewrite logging_errors_bind by done.
    destruct (construct _ _ _) as [w2 [result|e]] eqn:Hcons.
    + apply logging_errors_ok. erewrite bind_ok by done. reflexivity.
    + apply logging_errors_raise. by erewrite bind_raise by done.
Qed.

(** C9.  [create] draws the document's identifier from the client
    library and writes under it the encoded record, which has no [id]
    key.  Its outcome is the same whatever identifier the record came
    with.  For a valid record, an identifier no stored document has and
    that the [id] field takes, the result is the record with its [id]
    replaced by the drawn identifier, the collection has gained exactly
    that document, and the trace records the write and the log line. *)
Theorem create_ignores_client_id w self r m :
  heap w !! self = Some (ORepository r) → __class__ m = model_class r →
  let name := collection_name r in
  let doc_id := _auto_id (drawn w) in
  let data := delete "id" (dump_value <$> __dict__ m) in
  (∀ x, create self {| __class__ := __class__ m;
                       __dict__ := <["id" := x]> (__dict__ m) |} w
        = create self m w) ∧
  _to_dict m = data ∧ data !! "id" = None ∧
  (valid_record m → id_accepted (__class__ m) doc_id →
   find_doc (docs_of w name) doc_id = None →
   ∃ w', create self m w = (w', Ok (with_id m doc_id)) ∧
         collections w'
         = <[name := docs_of w name ++ [{| id := doc_id; exists_ := true; _data := data |}]]>
             (collections w) ∧
         trace w' = trace w ++ [RpcCreate name doc_id data; LogInfo (Created name doc_id)]).
Proof.
  intros Hr Hcls name doc_id data. split; [|split; [|split]].
  - intros x. rewrite !(create_run _ _ _ _ Hr). cbn zeta.
    rewrite !_to_dict_dump, !model_dump_all. cbn [__dict__].
    by rewrite !fmap_insert, delete_insert_eq, insert_insert_eq.
  - apply _to_dict_dump.
  - apply lookup_delete_eq.
  - intros Hvalid Hid Hfresh. rewrite (create_run _ _ _ _ Hr). cbn zeta.
    fold name doc_id. rewrite Hfresh.
    rewrite bool_decide_eq_false_2 by (intros [? [=]]).
    rewrite <- Hcls, construct_with_id; [|done..|].
    + eexists. split; [done|]. rewrite _to_dict_dump. fold data.
      destruct (with_client_store w self r) as (Hc & _ & Ht).
      unfold written, docs_of. simpl. by rewrite Hc, Ht, <- app_assoc.
    + intros k _. by rewrite model_dump_all, lookup_fmap.
Qed.
Lemma filter_all {A} (l : list A) : List.filter (λ _, true) l = l.
Proof. induction l; simpl; by f_equal. Qed.

Lemma select_all (name : string) (docs : list DocumentSnapshot) :
  select (collection_query name) docs = Ok docs.
Proof. unfold select. simpl. by rewrite filter_all. Qed.

Lemma select_limit (name : string) (n : Z) (docs : list DocumentSnapshot) :
  0 ≤ n → select (Query_limit (collection_query name) n) docs = Ok (take (Z.to_nat n) docs).
Proof.
  intros Hn. unfold select. simpl. rewrite filter_all.
  destruct (Z.ltb_spec n 0); [lia | done].
Qed.

Lemma list_all_run w self r (limit : option Z) (docs : list DocumentSnapshot) :
  heap w !! self = Some (ORepository r) →
  select (listed (collection_name r) limit) (docs_of w (collection_name r)) = Ok docs →
  list_all self limit w
  = logging_errors (FailedList (collection_name r))
      (mapM (λ doc, _from_dict self (to_dict doc) (id doc)) docs)
      (logged (RpcStream (listed (collection_name r) limit)) (with_client w self r)).
Proof.
  intros Hr Hs. unfold list_all.
  erewrite bind_ok by by apply the_repository_ok.
  erewrite logging_errors_bind by by apply collection_ok.
  erewrite logging_errors_bind; [done|].
  apply stream_ok.
  assert (_parent (listed (collection_name r) limit) = collection_name r) as ->
    by (unfold listed; by destruct (int_truthy limit)).
  unfold docs_of in *. by destruct (with_client_store w self r) as (-> & _ & _).
Qed.

(** C10.  A limit of zero is not passed to the store: [list_all] with
    limit 0 is [list_all] without a limit, which scans the whole
    collection and decodes every document of it.  With a positive limit
    [n] the scan is cut after the first [n] documents, so at most [n]
    records come back.  No document is skipped: one without a map is
    decoded from the identifier alone. *)
Theorem list_all_limit w self r :
  heap w !! self = Some (ORepository r) →
  let name := collection_name r in
  let docs := docs_of w name in
  let decode := λ doc, _from_dict self (to_dict doc) (id doc) in
  let scanned := λ q, logged (RpcStream q) (with_client w self r) in
  list_all self (Some 0) w = list_all self None w ∧
  list_all self None w
    = logging_errors (FailedList name) (mapM decode docs) (scanned (collection_query name)) ∧
  (∀ w' out, list_all self None w = (w', Ok out) → length out = length docs) ∧
  (∀ n, 0 < n →
     list_all self (Some n) w
       = logging_errors (FailedList name) (mapM decode (take (Z.to_nat n) docs))
           (scanned (Query_limit (collection_query name) n)) ∧
     ∀ w' out, list_all self (Some n) w = (w', Ok out) → Z.of_nat (length out) ≤ n) ∧
  (∀ doc w' r', heap w' !! self = Some (ORepository r') → to_dict doc = None →
     decode doc w' = construct (model_class r') {["id" := VStr (id doc)]} w').
Proof.
  intros Hr name docs decode scanned. subst name.
  assert (Hnone : list_all self None w
            = logging_errors (FailedList (collection_name r)) (mapM decode docs)
                (scanned (collection_query (collection_name r)))).
  { apply (list_all_run _ _ _ None); [done | apply select_all]. }
  assert (Hpos : ∀ n, 0 < n →
            list_all self (Some n) w
            = logging_errors (FailedList (collection_name r)) (mapM decode (take (Z.to_nat n) docs))
                (scanned (Query_limit (collection_query (collection_name r)) n))).
  { intros n Hn. assert (listed (collection_name r) (Some n) = Query_limit (collection_query (collection_name r)) n) as Hq.
    { unfold listed. simpl. destruct (Z.eqb_spec n 0); [lia | done]. }
    rewrite <- Hq. apply list_all_run; [done|]. rewrite Hq. apply select_limit. lia. }
  split; [done|]. split; [done|]. split; [|split].
  - intros w' out. rewrite Hnone. intros Hl%logging_errors_inv.
    by apply mapM_length in Hl.
  - intros n Hn. split; [by apply Hpos|].
    intros w' out. rewrite Hpos by done. intros Hl%logging_errors_inv.
    apply mapM_length in Hl. rewrite Hl, length_take. lia.
  - intros doc w' r' Hr' Hd. unfold decode.
    rewrite (_from_dict_run _ _ _ _ _ Hr'), Hd. simpl.
    by rewrite insert_empty.
Qed.
End RepositoryFacts.

Section RepositoryScenarios.
#[local] Existing Instances demo_store demo_pydantic demo_clock.

Lemma alice_valid : valid_record alice.
Proof.
  split.
  - apply (bool_decide_unpack _). by vm_compute.
  - repeat (constructor; [by eexists|]). constructor.
Qed.

Lemma User_takes_string_id (doc_id : string) : id_accepted User doc_id.
Proof.
  split.
  - apply (bool_decide_unpack _). by vm_compute.
  - repeat (constructor; [by intros|]). constructor.
Qed.

Lemma decode_encode_roundtrip_witness :
  _from_dict 3 (Some (_to_dict alice)) "server-id" w0
  = (w0, Ok (with_id alice "server-id")).
Proof.
  apply (decode_encode_roundtrip w0 3 users_repository alice "server-id");
    [reflexivity | reflexivity | exact alice_valid | exact (User_takes_string_id _)].
Defined.

Lemma get_by_id_absent_or_decoded_witness :
  get_by_id 3 "nobody" w0
  = (logged (RpcGet "users" "nobody") (with_client w0 3 users_repository), Ok None).
Proof.
  apply (get_by_id_absent_or_decoded w0 3 users_repository "nobody");
    reflexivity.
Defined.

(** A stored document is decoded; a document the store does not have,
    and the identifier of a snapshot that does not exist, give [None]. *)
Example get_by_id_scenario :
  (get_by_id 3 "u1" w0).2
    = Ok (Some {| __class__ := User;
                  __dict__ := list_to_map
                    [("id", VStr "u1"); ("created_at", VDatetime 1);
                     ("updated_at", VDatetime 2); ("name", VStr "Ann");
                     ("age", VInt 41); ("nickname", VNone); ("payload", VNone)] |}) ∧
  (get_by_id 3 "u3" w0).2 = Ok None ∧
  (get_by_id 3 "nobody" w0).2 = Ok None.
Proof. by vm_compute. Qed.

Lemma create_ignores_client_id_witness :
  ∃ w', create 3 alice w0 = (w', Ok (with_id alice "auto0")) ∧
        collections w'
        = <["users" := docs_of w0 "users" ++
              [{| id := "auto0"; exists_ := true;
                  _data := delete "id" (dump_value <$> __dict__ alice) |}]]>
            (collections w0) ∧
        trace w' = trace w0 ++
          [RpcCreate "users" "auto0" (delete "id" (dump_value <$> __dict__ alice));
           LogInfo (Created "users" "auto0")].
Proof.
  exact (proj2 (proj2 (proj2
           (create_ignores_client_id w0 3 users_repository alice eq_refl eq_refl)))
           alice_valid (User_takes_string_id _) eq_refl).
Defined.

Lemma list_all_limit_witness : list_all 3 (Some 0) w0 = list_all 3 None w0.
Proof. apply (list_all_limit w0 3 users_repository). reflexivity. Defined.

(** With limit 1 the first document comes back; without a limit, as
    with limit 0, the second document, whose map is empty, is decoded
    too and fails validation. *)
Example list_all_scenario :
  (list_all 3 (Some 1) w0).2
    = Ok [{| __class__ := User;
             __dict__ := list_to_map
               [("id", VStr "u1"); ("created_at", VDatetime 1);
                ("updated_at", VDatetime 2); ("name", VStr "Ann");
                ("age", VInt 41); ("nickname", VNone); ("payload", VNone)] |}] ∧
  (list_all 3 (Some 0) w0).2
    = Raise (ValidationError "User" [Missing "name"; Missing "age"]).
Proof. by vm_compute. Qed.
End RepositoryScenarios.

(** * Further properties *)

(** ** The builder: failed calls, repeated limits, order of calls *)

Section BuilderMore.
Context `{Firestore}.
Implicit Types (w : world) (self d : loc) (b : FirestoreQueryBuilder) (q : Query).

(** X1.  A builder call that raises has changed nothing: after a failed
    [where], [order_by] or [limit] the world, and with it the builder and
    every query object, is as before the call. *)
Theorem failed_builder_call_changes_nothing w w' self (field : FieldPath)
    (op direction : string) (v : pyval) (count : Z) (e : exn) :
  (where_ self field op v w = (w', Raise e) → w' = w) ∧
  (order_by self field direction w = (w', Raise e) → w' = w) ∧
  (limit self count w = (w', Raise e) → w' = w).
Proof.
  split; [|split].
  - unfold where_, the_builder, the_query, Query_where. run.
    intros Hr. repeat case_match; by simplify_eq/=.
  - unfold order_by, the_builder, the_query, Query_order_by. run.
    intros Hr. repeat case_match; by simplify_eq/=.
  - unfold limit, the_builder, the_query. run.
    intros Hr. repeat case_match; by simplify_eq/=.
Qed.

(** After a rebinding the builder reads the new query. *)
Lemma rebound_bound w self b q :
  heap w !! self = Some (OBuilder b) →
  bound_query (rebound w self b q)
    {| _query := fresh (dom (heap w)); fields := fields b |} = Some q.
Proof.
  intros Hb. unfold bound_query. cbn [_query]. by rewrite rebound_query.
Qed.

(** X2.  [limit] overwrites: after [limit(n)] and then [limit(m)] the
    builder is bound to the query it would be bound to after [limit(m)]
    alone; the first limit leaves no trace in the description. *)
Theorem limit_last_wins w self b q (n m : Z) :
  heap w !! self = Some (OBuilder b) → bound_query w b = Some q →
  ∃ w2 b2, (b1 ← limit self n; limit b1 m) w = (w2, Ok self) ∧
           heap w2 !! self = Some (OBuilder b2) ∧
           bound_query w2 b2 = Some (Query_limit q m).
Proof.
  intros Hb Hq.
  erewrite bind_ok by by apply limit_ok.
  set (w1 := rebound w self b (Query_limit q n)).
  set (b1 := {| _query := fresh (dom (heap w)); fields := fields b |}).
  assert (Hb1 : heap w1 !! self = Some (OBuilder b1)) by apply rebound_builder.
  assert (Hq1 : bound_query w1 b1 = Some (Query_limit q n)) by by apply rebound_bound.
  rewrite (limit_ok _ _ _ _ m Hb1 Hq1).
  eexists _, _. split; [done|]. split; [apply rebound_builder|].
  by rewrite rebound_bound.
Qed.

(** X3.  The description does not depend on whether the limit is set
    before or after a filter is added: [where] then [limit] and [limit]
    then [where] bind the builder to equal queries. *)
Theorem where_and_limit_commute w self b q (field : FieldPath) (op : string) (v : pyval)
    (n : Z) :
  heap w !! self = Some (OBuilder b) → bound_query w b = Some q →
  isinstance v (type_ field) = Ok true →
  filter_accepted {| field_path := name field; op_string := op; value := v |} = true →
  ∃ wa ba wb bb q',
    (b1 ← where_ self field op v; limit b1 n) w = (wa, Ok self) ∧
    (b1 ← limit self n; where_ b1 field op v) w = (wb, Ok self) ∧
    heap wa !! self = Some (OBuilder ba) ∧ heap wb !! self = Some (OBuilder bb) ∧
    bound_query wa ba = Some q' ∧ bound_query wb bb = Some q' ∧
    _field_filters q' = _field_filters q ++
      [{| field_path := name field; op_string := op; value := v |}] ∧
    _limit q' = Some n.
Proof.
  intros Hb Hq Hi Hf.
  set (b1 := {| _query := fresh (dom (heap w)); fields := fields b |}).
  erewrite bind_ok by by apply where_ok.
  set (qw := Build_Query _ _ _ _). set (w1 := rebound w self b qw).
  assert (Hb1 : heap w1 !! self = Some (OBuilder b1)) by apply rebound_builder.
  assert (Hq1 : bound_query w1 b1 = Some qw) by by apply rebound_bound.
  rewrite (limit_ok _ _ _ _ n Hb1 Hq1).
  erewrite bind_ok by by apply limit_ok.
  set (w1' := rebound w self b (Query_limit q n)).
  assert (Hb1' : heap w1' !! self = Some (OBuilder b1)) by apply rebound_builder.
  assert (Hq1' : bound_query w1' b1 = Some (Query_limit q n)) by by apply rebound_bound.
  rewrite (where_ok _ _ _ _ _ _ _ Hb1' Hq1' Hi Hf).
  eexists _, _, _, _, (Query_limit qw n).
  split; [done|]. split; [done|].
  split; [apply rebound_builder|]. split; [apply rebound_builder|].
  split; [by rewrite rebound_bound|]. split; [by rewrite rebound_bound|]. done.
Qed.
End BuilderMore.

(** ** What a computation leaves alone *)

Section Frames.
Context `{Firestore, Pydantic, Clock} {B : Type} (f : world → B).
Hypothesis f_logged : ∀ e w, f (logged e w) = f w.
Hypothesis f_advanced : ∀ w, f (advanced w) = f w.

Lemma keeps_ret {A} (a : A) : keeps f (mret a).
Proof. done. Qed.

Lemma keeps_throw {A} (e : exn) : keeps f (mthrow (M := M) (A := A) e).
Proof. done. Qed.

Lemma keeps_lift {A} (r : result A) : keeps f (lift r).
Proof. done. Qed.

Lemma keeps_bind {A C} (m : M A) (k : A → M C) :
  keeps f m → (∀ a, keeps f (k a)) → keeps f (m ≫= k).
Proof.
  intros Hm Hk w. specialize (Hm w). unfold mbind, M_bind.
  destruct (m w) as [w1 [a|e]]; simpl in *; [|done].
  by rewrite Hk.
Qed.

Lemma keeps_emit (e : event) : keeps f (emit e).
Proof. intros w. apply f_logged. Qed.

Lemma keeps_draw : keeps f draw.
Proof. intros w. apply f_advanced. Qed.

Lemma keeps_logging_errors {A} describe (body : M A) :
  keeps f body → keeps f (logging_errors describe body).
Proof.
  intros Hb w. specialize (Hb w). unfold logging_errors.
  destruct (body w) as [w1 [a|e]]; simpl in *; [done|].
  by rewrite f_logged.
Qed.

Lemma keeps_mapM {A C} (g : A → M C) (l : list A) :
  (∀ a, keeps f (g a)) → keeps f (mapM g l).
Proof.
  intros Hg. induction l as [|a l IH]; [done|].
  rewrite mapM_cons. apply keeps_bind; [done|]. intros c.
  apply keeps_bind; [done|]. intros cs. apply keeps_ret.
Qed.

Lemma keeps_decoded {C} (g : option dict → string → M C) (docs : list DocumentSnapshot) :
  (∀ raw i, keeps f (g raw i)) → keeps f (decoded g docs).
Proof.
  intros Hg w. rewrite decoded_filter. by apply keeps_mapM.
Qed.

Lemma keeps_the_repository (self : loc) : keeps f (the_repository self).
Proof. intros w. unfold the_repository. run. by repeat case_match. Qed.

Lemma keeps_the_builder (self : loc) : keeps f (the_builder self).
Proof. intros w. unfold the_builder. run. by repeat case_match. Qed.

Lemma keeps_the_query (l : loc) : keeps f (the_query l).
Proof. intros w. unfold the_query. run. by repeat case_match. Qed.

Lemma keeps_stream (q : Query) : keeps f (stream q).
Proof.
  unfold stream. apply keeps_bind; [apply keeps_emit|]. intros _.
  apply keeps_bind; [done|]. intros w. apply keeps_lift.
Qed.

Lemma keeps_validate_fields (fs : list (string * FieldInfo)) (data : dict) :
  keeps f (validate_fields fs data).
Proof.
  induction fs as [|[field info] fs IH]; [done|]. simpl.
  apply keeps_bind.
  - destruct (data !! field); [by destruct (validate_field _ _)|].
    destruct (default_ info);
      first [done | apply keeps_bind; [apply keeps_draw | by intros]].
  - intros r. apply keeps_bind; [done | by intros].
Qed.

Lemma keeps_construct (cls : ModelClass) (data : dict) : keeps f (construct cls data).
Proof.
  unfold construct. apply keeps_bind; [apply keeps_validate_fields|].
  intros r. by destruct (r.1).
Qed.

Lemma keeps__from_dict (self : loc) (data : option dict) (doc_id : string) :
  keeps f (_from_dict self data doc_id).
Proof.
  unfold _from_dict. apply keeps_bind; [apply keeps_the_repository|].
  intros r. apply keeps_construct.
Qed.

Lemma keeps_execute {C} (builder : loc) (g : option dict → string → M C) :
  (∀ raw i, keeps f (g raw i)) → keeps f (execute builder g).
Proof.
  intros Hg. unfold execute, build.
  apply keeps_bind; [|intros d; apply keeps_bind; [apply keeps_the_query|]].
  - apply keeps_bind; [apply keeps_the_builder | by intros].
  - intros q. apply keeps_bind; [apply keeps_stream|].
    intros docs. by apply keeps_decoded.
Qed.

Lemma keeps_query (self builder : loc) : keeps f (query self builder).
Proof.
  unfold query. apply keeps_bind; [apply keeps_the_repository|]. intros r.
  apply keeps_logging_errors, keeps_execute. intros. apply keeps__from_dict.
Qed.
End Frames.

(** ** The repository: its client, its reads, its round trips *)

Section RepositoryMore.
Context `{Firestore, Pydantic, Clock}.
Implicit Types (w : world) (self : loc) (r : FirestoreRepository) (m : BaseModel).

Lemma with_client_connected w self r :
  heap w !! self = Some (ORepository r) →
  ∃ r', heap (with_client w self r) !! self = Some (ORepository r') ∧
        _db r' = Some (default (get_firestore_client None) (_db r)) ∧
        model_class r' = model_class r ∧ collection_name r' = collection_name r.
Proof.
  intros Hr. unfold with_client. destruct (_db r) eqn:Hdb.
  - exists r. by rewrite Hdb.
  - eexists. simpl. by rewrite lookup_insert_eq.
Qed.




(** X5.  [query] scans the query the builder is bound to, in the
    collection that query belongs to, and decodes with the repository's
    [_from_dict] the documents whose map is not empty; an error is logged
    under the repository's collection name and raised again.  The
    repository's client is not created, and the heap and the store are as
    before: the same builder can be executed again. *)
Theorem query_scans_builder w self (builder : loc) r (b : FirestoreQueryBuilder)
    (q : Query) (docs : list DocumentSnapshot) :
  heap w !! self = Some (ORepository r) →
  heap w !! builder = Some (OBuilder b) → bound_query w b = Some q →
  select q (docs_of w (_parent q)) = Ok docs →
  query self builder w
    = logging_errors (FailedQuery (collection_name r))
        (mapM (λ doc, _from_dict self (to_dict doc) (id doc)) (List.filter nonempty docs))
        (logged (RpcStream q) w) ∧
  heap (query self builder w).1 = heap w ∧
  collections (query self builder w).1 = collections w.
Proof.
  intros Hr Hb Hq Hs. split; [|split].
  - unfold query. erewrite bind_ok by by apply the_repository_ok.
    unfold execute.
    erewrite logging_errors_bind by by apply build_ok.
    erewrite logging_errors_bind by by apply the_query_ok.
    erewrite logging_errors_bind by by apply stream_ok.
    unfold logging_errors. by rewrite decoded_filter.
  - by apply (keeps_query heap).
  - by apply (keeps_query collections).
Qed.

Lemma keeps_collection (self : loc) : keeps collections (collection self).
Proof.
  intros w. unfold collection, db, the_repository. run.
  repeat case_match; by simplify_eq/=.
Qed.

(** X6.  Reading never writes: whatever their outcome, [get_by_id],
    [list_all] and [query] leave the documents of every collection as
    they were. *)
Theorem reads_leave_documents w self (builder : loc) (doc_id : string) (limit : option Z) :
  collections (get_by_id self doc_id w).1 = collections w ∧
  collections (list_all self limit w).1 = collections w ∧
  collections (query self builder w).1 = collections w.
Proof.
  split; [|split].
  - unfold get_by_id. apply (keeps_bind collections); [by apply keeps_the_repository|].
    intros r. apply keeps_logging_errors; [done|].
    apply keeps_bind; [apply keeps_collection|]. intros c.
    apply keeps_bind.
    { unfold DocumentReference_get. apply keeps_bind; [by apply keeps_emit|].
      intros _. by apply keeps_bind. }
    intros doc. destruct (negb (exists_ doc)); [done|].
    apply keeps_bind; [by apply keeps__from_dict | by intros].
  - unfold list_all. apply (keeps_bind collections); [by apply keeps_the_repository|].
    intros r. apply keeps_logging_errors; [done|].
    apply keeps_bind; [apply keeps_collection|]. intros c.
    apply keeps_bind; [by apply keeps_stream|]. intros docs.
    apply keeps_mapM. intros doc. by apply keeps__from_dict.
  - by apply (keeps_query collections).
Qed.

End RepositoryMore.

Section RoundTrips.
Context `{Firestore, Pydantic, Clock}.
Implicit Types (w : world) (self : loc) (r : FirestoreRepository) (m : BaseModel).

Lemma get_by_id_run w self r (doc_id : string) :
  heap w !! self = Some (ORepository r) →
  let doc := snapshot_of (docs_of w (collection_name r)) doc_id in
  get_by_id self doc_id w
  = logging_errors (FailedGet (collection_name r) doc_id)
      (if negb (exists_ doc) then mret None
       else m ← _from_dict self (to_dict doc) doc_id; mret (Some m))
      (logged (RpcGet (collection_name r) doc_id) (with_client w self r)).
Proof.
  intros Hr doc. unfold get_by_id.
  erewrite bind_ok by by apply the_repository_ok.
  erewrite logging_errors_bind by by apply collection_ok.
  erewrite logging_errors_bind by apply DocumentReference_get_ok.
  unfold docs_of. by destruct (with_client_store w self r) as (-> & _ & _).
Qed.

Lemma find_doc_appended (docs : list DocumentSnapshot) (doc_id : string) (data : dict) :
  find_doc docs doc_id = None →
  find_doc (docs ++ [{| id := doc_id; exists_ := true; _data := data |}]) doc_id
  = Some {| id := doc_id; exists_ := true; _data := data |}.
Proof.
  unfold find_doc. induction docs as [|d docs IH]; simpl.
  - intros _. by rewrite bool_decide_eq_true_2.
  - destruct (bool_decide (id d = doc_id) && exists_ d); [done | apply IH].
Qed.

End RoundTrips.

(** ** More on field references and fresh builders *)

Section FieldRefMore.
Context `{Python}.

(** X9.  A record type may declare a field called [model_class].  Its
    handle then takes the place of the record type kept by the
    [FieldRef], and the lookup of a name that is neither declared nor
    found by Python on the class of the object no longer names the field
    and the record type: the handler fails on
    [self.model_class.__name__] with the [AttributeError] of a
    [FieldPath] that has no [__name__]. *)
Theorem model_class_field_shadows (T : ModelClass) (n : string) :
  NoDup (model_fields T).*1 → "model_class" ∈ (model_fields T).*1 →
  n ∉ (model_fields T).*1 → on_class n = false →
  (∃ p, getattr (FieldRef__init__ T) "model_class" = Ok (AField p) ∧
        name p = "model_class") ∧
  getattr (FieldRef__init__ T) n
  = Raise (AttributeError (MsgNoAttribute "FieldPath" "__name__")).
Proof.
  intros Hnd Hmc Hn Hcls.
  apply list_elem_of_fmap in Hmc as ([f info] & Hf & Hin). simpl in Hf. subst f.
  assert (Hlook : FieldRef__init__ T !! "model_class"
            = Some (AField {| name := "model_class";
                              type_ := safe_annotation (annotation info) |}))
    by (unfold FieldRef__init__; by apply declare_field).
  split.
  - eexists. unfold getattr. by rewrite Hlook.
  - assert (n ≠ "model_class") as Hne.
    { intros ->. apply Hn. apply list_elem_of_fmap. by exists ("model_class", info). }
    unfold getattr, FieldRef__getattr__. rewrite Hlook, Hcls.
    unfold FieldRef__init__. rewrite declare_other by done.
    unfold setattr. by rewrite lookup_insert_ne, lookup_empty.
Qed.
End FieldRefMore.

Section FreshBuilder.
Context `{Firestore} {T : Type}.

(** X10.  A builder that was just made over a collection reference is
    bound to that very object, which [build] returns, and [execute] on it
    scans the whole collection without filter, ordering or limit: it
    decodes, in the store's order, every document of the collection whose
    map is not empty. *)
Theorem fresh_builder_scans_collection (w : world) (c : loc) (collection_id : string)
    (fields : FieldRef) (decode : option dict → string → M T) :
  heap w !! c = Some (OCollection collection_id) →
  ∃ self w1,
    FirestoreQueryBuilder__init__ c fields w = (w1, Ok self) ∧
    heap w !! self = None ∧
    build self w1 = (w1, Ok c) ∧
    execute self decode w1
    = mapM (λ doc, decode (to_dict doc) (id doc))
        (List.filter nonempty (docs_of w collection_id))
        (logged (RpcStream (collection_query collection_id)) w1).
Proof.
  intros Hc. set (self := fresh (dom (heap w))).
  set (b := {| _query := c; fields := fields |}).
  set (w1 := set_heap (<[self := OBuilder b]> (heap w)) w).
  assert (Hself : heap w !! self = None) by apply fresh_loc_unused.
  assert (Hb : heap w1 !! self = Some (OBuilder b)) by apply lookup_insert_eq.
  assert (Hq : bound_query w1 b = Some (collection_query collection_id)).
  { unfold bound_query, w1. simpl. rewrite lookup_insert_ne, Hc; [done|].
    intros <-. by rewrite Hc in Hself. }
  exists self, w1. split; [done|]. split; [done|].
  split; [exact (build_ok w1 self b Hb)|].
  unfold execute.
  erewrite bind_ok by by apply build_ok.
  erewrite bind_ok by by apply (the_query_ok w1 b).
  erewrite bind_ok; [apply decoded_filter|].
  apply stream_ok. unfold select. simpl.
  change (docs_of w1 collection_id) with (docs_of w collection_id).
  f_equal. clear. induction (docs_of w collection_id) as [|d l IH]; simpl; by f_equal.
Qed.
End FreshBuilder.

(** ** Stepping through a session *)

Lemma session_bind_done {A B} (m : N A) (k : A → N B) (s s' : session) (a : A) :
  m s = (s', Done a) → (m ≫= k) s = k a s'.
Proof. intros Hm. unfold mbind, N_bind. by rewrite Hm. Qed.

Lemma session_bind_failed {A B} (m : N A) (k : A → N B) (s s' : session) (f : failure) :
  m s = (s', Failed f) → (m ≫= k) s = (s', Failed f).
Proof. intros Hm. unfold mbind, N_bind. by rewrite Hm. Qed.

Lemma earlier_ok {A} (m : M A) (s : session) (w' : world) (a : A) :
  m (world_of s) = (w', Ok a) → earlier m s = (on w' s, Done a).
Proof. intros Hm. unfold earlier. by rewrite Hm. Qed.

Lemma earlier_raise {A} (m : M A) (s : session) (w' : world) (e : exn) :
  m (world_of s) = (w', Raise e) → earlier m s = (on w' s, Failed (Earlier e)).
Proof. intros Hm. unfold earlier. by rewrite Hm. Qed.

Lemma earlier_bind {A B} (m : M A) (k : A → M B) (s : session) (w' : world) (a : A) :
  m (world_of s) = (w', Ok a) → earlier (m ≫= k) s = earlier (k a) (on w' s).
Proof. intros Hm. unfold earlier. by erewrite bind_ok by done. Qed.

Lemma earlier_bind_raise {A B} (m : M A) (k : A → M B) (s : session) (w' : world)
    (e : exn) :
  m (world_of s) = (w', Raise e) → earlier (m ≫= k) s = (on w' s, Failed (Earlier e)).
Proof. intros Hm. unfold earlier. by erewrite bind_raise by done. Qed.

Lemma noting_errors_done {A} describe (body : N A) (s s' : session) (a : A) :
  body s = (s', Done a) → noting_errors describe body s = (s', Done a).
Proof. intros Hb. unfold noting_errors. by rewrite Hb. Qed.

Lemma noting_errors_failed {A} describe (body : N A) (s s' : session) (f : failure) :
  body s = (s', Failed f) →
  noting_errors describe body s = (noted (JournalError (describe f)) s', Failed f).
Proof. intros Hb. unfold noting_errors. by rewrite Hb. Qed.

Lemma noting_errors_bind {A B} describe (first : N A) (k : A → N B) (s s' : session)
    (a : A) :
  first s = (s', Done a) →
  noting_errors describe (first ≫= k) s = noting_errors describe (k a) s'.
Proof. intros Hf. unfold noting_errors. by erewrite session_bind_done by done. Qed.

(** ** Finding documents by field values *)

Section FindingFacts.
Context `{Firestore, Pydantic, Clock}.
Implicit Types (s : session) (self : loc) (r : FirestoreRepository) (q : Query).

Lemma narrowed_accepted q (fields : list (string * pyval)) :
  Forall (λ f, filter_accepted f = true) (equality_filters fields) →
  narrowed q fields
  = Ok {| _parent := _parent q;
          _field_filters := _field_filters q ++ equality_filters fields;
          _orders := _orders q; _limit := _limit q |}.
Proof.
  revert q. induction fields as [|[field v] fields IH]; intros q Hall; simpl.
  - rewrite app_nil_r. by destruct q.
  - unfold equality_filters in Hall. rewrite fmap_cons in Hall.
    apply Forall_cons in Hall as [Hf Hall]. simpl in Hf.
    unfold Query_where at 1. rewrite Hf, IH by done. simpl.
    by rewrite <- app_assoc.
Qed.

Lemma narrowed_refused q (fields : list (string * pyval)) :
  Exists (λ f, filter_accepted f = false) (equality_filters fields) →
  narrowed q fields = Raise (ValueError "filter").
Proof.
  revert q. induction fields as [|[field v] fields IH]; intros q Hex; simpl.
  - by apply Exists_nil in Hex.
  - unfold equality_filters in Hex. rewrite fmap_cons in Hex. simpl in Hex.
    unfold Query_where at 1.
    destruct (filter_accepted _) eqn:Hf; [|done].
    apply IH. apply Exists_cons in Hex as [Hbad|Hex]; [congruence | done].
Qed.

Lemma select_filters (name : string) (filters : list FieldFilter)
    (docs : list DocumentSnapshot) :
  select {| _parent := name; _field_filters := filters; _orders := []; _limit := None |} docs
  = Ok (passing filters docs).
Proof. done. Qed.

(** X11.  [find_by_fields] adds one equality filter per keyword, in the
    order of the keywords.  When the client accepts them all, it scans
    the repository's collection once with exactly these filters and
    decodes the selected documents whose map is not empty.  When it
    refuses one, the call fails with the client's [ValueError] before any
    scan: the trace of store calls is as before, and the failure is
    journalled with the keywords. *)
Theorem find_by_fields_scans s self r (fields : list (string * pyval)) :
  heap (world_of s) !! self = Some (ORepository r) →
  let w := world_of s in
  let name := collection_name r in
  let q := {| _parent := name; _field_filters := equality_filters fields;
              _orders := []; _limit := None |} in
  (Forall (λ f, filter_accepted f = true) (equality_filters fields) →
   find_by_fields self fields s
   = noting_errors (λ _, FailedFindFields name fields)
       (earlier (mapM (λ doc, _from_dict self (to_dict doc) (id doc))
                   (List.filter nonempty (passing (equality_filters fields) (docs_of w name)))))
       (on (logged (RpcStream q) (with_client w self r)) s)) ∧
  (Exists (λ f, filter_accepted f = false) (equality_filters fields) →
   find_by_fields self fields s
   = (noted (JournalError (FailedFindFields name fields)) (on (with_client w self r) s),
      Failed (Earlier (ValueError "filter"))) ∧
   trace (with_client w self r) = trace w).
Proof.
  intros Hr w name q. split.
  - intros Hall. unfold find_by_fields.
    erewrite session_bind_done by (apply earlier_ok; by apply the_repository_ok).
    replace (on (world_of s) s) with s by by destruct s.
    unfold noting_errors at 1.
    erewrite earlier_bind by by apply collection_ok.
    erewrite earlier_bind by (rewrite lift_run; by rewrite narrowed_accepted).
    erewrite earlier_bind; cycle 1.
    { apply stream_ok. simpl. rewrite select_filters.
      unfold docs_of. destruct (with_client_store (world_of s) self r) as (-> & _ & _).
      done. }
    unfold noting_errors, earlier. simpl. by rewrite decoded_filter.
  - intros Hex. split; [|apply with_client_store]. unfold find_by_fields.
    erewrite session_bind_done by (apply earlier_ok; by apply the_repository_ok).
    replace (on (world_of s) s) with s by by destruct s.
    erewrite noting_errors_failed; cycle 1.
    { erewrite earlier_bind by by apply collection_ok.
      apply earlier_bind_raise. rewrite lift_run. by rewrite narrowed_refused. }
    done.
Qed.

Lemma single_keyword (self : loc) (field : string) (v : pyval) (w : world) :
  (c ← collection self;
   q ← lift (Query_where (collection_query c)
               {| field_path := field; op_string := "=="; value := v |});
   docs ← stream q;
   decoded (_from_dict self) docs) w
  = (c ← collection self;
     q ← lift (narrowed (collection_query c) [(field, v)]);
     docs ← stream q;
     decoded (_from_dict self) docs) w.
Proof.
  destruct (collection self w) as [w1 [c|e]] eqn:Hc.
  - rewrite !(bind_ok _ _ _ _ _ Hc). cbn [narrowed].
    destruct (Query_where _ _) as [q|e] eqn:Hq.
    + by rewrite !(bind_ok _ _ _ _ _ (lift_run _ _)).
    + by rewrite !(bind_raise _ _ _ _ _ (lift_run _ _)).
  - by rewrite !(bind_raise _ _ _ _ _ Hc).
Qed.

(** X12.  [find_by_field(field, value)] is [find_by_fields] with the one
    keyword [field=value]: the same outcome in the same world.  Only the
    line journalled for a failure differs. *)
Theorem find_by_field_is_single_keyword s self (field : string) (v : pyval) :
  (find_by_field self field v s).2 = (find_by_fields self [(field, v)] s).2 ∧
  world_of (find_by_field self field v s).1
  = world_of (find_by_fields self [(field, v)] s).1 ∧
  (∀ s' out, find_by_field self field v s = (s', Done out) ↔
             find_by_fields self [(field, v)] s = (s', Done out)).
Proof.
  unfold find_by_field, find_by_fields.
  destruct (earlier (the_repository self) s) as [s1 [r|f]] eqn:Hrep.
  - rewrite !(session_bind_done _ _ _ _ _ Hrep).
    unfold noting_errors, earlier. rewrite single_keyword.
    match goal with
    | |- context [outcome_of (?m (world_of s1)).2] =>
        destruct (m (world_of s1)) as [w1 [out|e]]
    end; simpl; [done|].
    split; [done|]. split; [done|]. by split.
  - by rewrite !(session_bind_failed _ _ _ _ _ Hrep).
Qed.
End FindingFacts.

(** ** Deleting and updating *)

Section StoreWrites.
Implicit Types (docs : list DocumentSnapshot) (doc_id : string).

Lemma find_doc_existsb docs doc_id :
  existsb (is_document doc_id) docs = bool_decide (is_Some (find_doc docs doc_id)).
Proof.
  unfold find_doc. induction docs as [|d docs IH]; simpl.
  - done.
  - fold (is_document doc_id d). by destruct (is_document doc_id d).
Qed.

Lemma find_doc_removed docs doc_id :
  find_doc (List.filter (λ d, negb (bool_decide (id d = doc_id))) docs) doc_id = None.
Proof.
  unfold find_doc. induction docs as [|d docs IH]; simpl; [done|].
  case_bool_decide as Hd; simpl; [done|].
  by rewrite bool_decide_eq_false_2.
Qed.

Lemma find_doc_removed_other docs doc_id (i : string) :
  i ≠ doc_id →
  find_doc (List.filter (λ d, negb (bool_decide (id d = doc_id))) docs) i = find_doc docs i.
Proof.
  intros Hne. unfold find_doc. induction docs as [|d docs IH]; simpl; [done|].
  case_bool_decide as Hd; simpl.
  - rewrite bool_decide_eq_false_2 by congruence. done.
  - by rewrite IH.
Qed.

Lemma is_document_merged doc_id (data : dict) (i : string) (d : DocumentSnapshot) :
  is_document i (merged doc_id data d) = is_document i d.
Proof.
  unfold merged. destruct (is_document doc_id d) eqn:Hd; [|done].
  apply andb_true_iff in Hd as [_ Hex]. unfold is_document. simpl. by rewrite Hex.
Qed.

Lemma find_doc_fmap (g : DocumentSnapshot → DocumentSnapshot) docs (i : string) :
  (∀ d, is_document i (g d) = is_document i d) →
  find_doc (g <$> docs) i = g <$> find_doc docs i.
Proof.
  intros Hg. unfold find_doc. induction docs as [|d docs IH]; [done|].
  rewrite fmap_cons. simpl. fold (is_document i (g d)) (is_document i d).
  rewrite Hg. by destruct (is_document i d).
Qed.

Lemma find_doc_merged docs doc_id (data : dict) :
  find_doc (merged doc_id data <$> docs) doc_id
  = merged doc_id data <$> find_doc docs doc_id.
Proof. apply find_doc_fmap. intros d. apply is_document_merged. Qed.

Lemma find_doc_is_document docs (i : string) (d : DocumentSnapshot) :
  find_doc docs i = Some d → is_document i d = true.
Proof. unfold find_doc. intros Hf. by apply find_some in Hf as [_ Hd]. Qed.

Lemma find_doc_merged_other docs doc_id (data : dict) (i : string) :
  i ≠ doc_id → find_doc (merged doc_id data <$> docs) i = find_doc docs i.
Proof.
  intros Hne. rewrite find_doc_fmap by (intros d; apply is_document_merged).
  destruct (find_doc docs i) as [d|] eqn:Hf; [|done]. simpl. f_equal.
  apply find_doc_is_document in Hf.
  apply andb_true_iff in Hf as [Hid%bool_decide_eq_true _].
  unfold merged, is_document. by rewrite bool_decide_eq_false_2 by congruence.
Qed.

Lemma docs_of_holding (s : session) (c : string) docs :
  docs_of (world_of (holding c docs s)) c = docs.
Proof. unfold docs_of, holding. simpl. by rewrite lookup_insert_eq. Qed.

Lemma docs_of_holding_other (s : session) (c other : string) docs :
  other ≠ c → docs_of (world_of (holding c docs s)) other = docs_of (world_of s) other.
Proof. intros Hne. unfold docs_of, holding. simpl. by rewrite lookup_insert_ne. Qed.
End StoreWrites.

Section WritingFacts.
Context `{Firestore, Pydantic, Clock}.
Implicit Types (s : session) (self : loc) (r : FirestoreRepository) (m : BaseModel)
  (doc_id : string).

Lemma delete_run s self r doc_id :
  heap (world_of s) !! self = Some (ORepository r) →
  let name := collection_name r in
  let w := world_of s in
  delete_ self doc_id s
  = (noted (JournalInfo (Deleted name doc_id))
       (holding name
          (List.filter (λ d, negb (bool_decide (id d = doc_id))) (docs_of w name))
          (noted (RpcDelete name doc_id) (on (with_client w self r) s))),
     Done true).
Proof.
  intros Hr name w. unfold delete_.
  erewrite session_bind_done by (apply earlier_ok; by apply the_repository_ok).
  replace (on (world_of s) s) with s by by destruct s.
  apply noting_errors_done.
  erewrite session_bind_done by (apply earlier_ok; by apply collection_ok).
  unfold DocumentReference_delete.
  erewrite session_bind_done; cycle 1.
  { erewrite session_bind_done by reflexivity. reflexivity. }
  erewrite session_bind_done by reflexivity.
  unfold docs_of. simpl. by destruct (with_client_store (world_of s) self r) as (-> & _ & _).
Qed.

(** X13.  [delete_] succeeds with [True] whether or not the document
    exists.  Afterwards the collection holds its former documents
    without those of that identifier, in their order; the other
    documents and the other collections are untouched; [get_by_id] on the
    identifier returns [None]; the journal has gained the store call and
    the log line. *)
Theorem delete_removes_document s self r doc_id :
  heap (world_of s) !! self = Some (ORepository r) →
  let name := collection_name r in
  let w := world_of s in
  ∃ s', delete_ self doc_id s = (s', Done true) ∧
        docs_of (world_of s') name
        = List.filter (λ d, negb (bool_decide (id d = doc_id))) (docs_of w name) ∧
        (∀ i, i ≠ doc_id →
           find_doc (docs_of (world_of s') name) i = find_doc (docs_of w name) i) ∧
        (∀ other, other ≠ name → docs_of (world_of s') other = docs_of w other) ∧
        (∃ w2, get_by_id self doc_id (world_of s') = (w2, Ok None)) ∧
        trace (world_of s') = trace w ∧
        journal s' = journal s ++
          [(length (trace w), RpcDelete name doc_id);
           (length (trace w), JournalInfo (Deleted name doc_id))].
Proof.
  intros Hr name w. eexists. split; [by apply delete_run|].
  fold name w.
  destruct (with_client_store w self r) as (Hc & _ & Ht).
  destruct (with_client_connected _ _ _ Hr) as (r' & Hr' & Hdb & _ & Hname).
  set (kept := List.filter _ _).
  assert (Hdocs : ∀ s0, docs_of (world_of (noted (JournalInfo (Deleted name doc_id))
                                   (holding name kept s0))) name = kept)
    by (intros; apply docs_of_holding).
  split; [apply Hdocs|]. split; [|split; [|split; [|split]]].
  - intros i Hi. rewrite Hdocs. by apply find_doc_removed_other.
  - intros other Hne. cbn [noted world_of].
    rewrite docs_of_holding_other by done. unfold docs_of. simpl. by rewrite Hc.
  - eexists.
    assert (Hr2 : heap (world_of (noted (JournalInfo (Deleted name doc_id))
                     (holding name kept
                        (noted (RpcDelete name doc_id) (on (with_client w self r) s)))))
                  !! self = Some (ORepository r')) by exact Hr'.
    rewrite (get_by_id_run _ _ _ _ Hr2), Hname. fold name.
    rewrite Hdocs. unfold snapshot_of, kept. rewrite find_doc_removed.
    cbn [default from_option exists_ negb]. by apply logging_errors_ok.
  - simpl. by rewrite Ht.
  - simpl. by rewrite Ht, <- app_assoc.
Qed.
End WritingFacts.

Section UpdateFacts.
Context `{Firestore, Pydantic, Clock}.
Implicit Types (s : session) (self : loc) (r : FirestoreRepository) (m : BaseModel)
  (doc_id : string).

(** What [update] does, step by step. *)
Lemma update_run s self r m doc_id :
  heap (world_of s) !! self = Some (ORepository r) →
  let name := collection_name r in
  let w := world_of s in
  let now := VDatetime (utcnow (drawn w)) in
  let data := <["updated_at" := now]> (_to_dict m) in
  let s1 := noted (RpcUpdate name doc_id data) (on (with_client (advanced w) self r) s) in
  let s2 := holding name (merged doc_id data <$> docs_of w name) s1 in
  update self doc_id m s
  = if existsb (is_document doc_id) (docs_of w name)
    then match construct (model_class r)
                 (<["updated_at" := now]> (<["id" := VStr doc_id]> (model_dump m ∅)))
                 (world_of s2) with
         | (w3, Ok result) =>
             (noted (JournalInfo (Updated name doc_id)) (on w3 s2), Done result)
         | (w3, Raise e) =>
             (noted (JournalError (FailedUpdate name doc_id (Earlier e))) (on w3 s2),
              Failed (Earlier e))
         end
    else (noted (JournalError (FailedUpdate name doc_id (NotFound name doc_id))) s1,
          Failed (NotFound name doc_id)).
Proof.
  intros Hr name w now data s1 s2. unfold update.
  erewrite session_bind_done by (apply earlier_ok; by apply the_repository_ok).
  replace (on (world_of s) s) with s by by destruct s.
  erewrite noting_errors_bind by (apply earlier_ok; reflexivity).
  fold w now. rewrite lookup_insert_eq. cbn [default from_option Datatypes.id]. fold data.
  assert (Hr1 : heap (world_of (on (advanced w) s)) !! self = Some (ORepository r))
    by exact Hr.
  erewrite noting_errors_bind by (apply earlier_ok; by apply collection_ok).
  cbn [world_of on]. fold name.
  assert (Hdocs : docs_of (with_client (advanced w) self r) name = docs_of w name).
  { unfold docs_of. by destruct (with_client_store (advanced w) self r) as (-> & _ & _). }
  unfold DocumentReference_update.
  destruct (existsb (is_document doc_id) (docs_of w name)) eqn:Hex.
  - erewrite noting_errors_bind; cycle 1.
    { erewrite session_bind_done by reflexivity.
      unfold merge_into. cbn [world_of noted on]. rewrite Hdocs, Hex. reflexivity. }
    fold s1 s2.
    destruct (construct _ _ (world_of s2)) as [w3 [result|e]] eqn:Hcons.
    + apply noting_errors_done.
      erewrite session_bind_done by (apply earlier_ok; exact Hcons).
      by erewrite session_bind_done by reflexivity.
    + erewrite noting_errors_failed; [reflexivity|].
      apply session_bind_failed. by apply earlier_raise.
  - erewrite noting_errors_failed; [reflexivity|].
    apply session_bind_failed.
    erewrite session_bind_done by reflexivity.
    unfold merge_into. cbn [world_of noted on]. by rewrite Hdocs, Hex.
Qed.

(** X14.  [update] on an identifier that no stored document has fails
    with the store's [NotFound], which is journalled and raised again;
    no document is created or changed. *)
Theorem update_missing_document s self r m doc_id :
  heap (world_of s) !! self = Some (ORepository r) →
  find_doc (docs_of (world_of s) (collection_name r)) doc_id = None →
  ∃ s', update self doc_id m s = (s', Failed (NotFound (collection_name r) doc_id)) ∧
        collections (world_of s') = collections (world_of s) ∧
        trace (world_of s') = trace (world_of s) ∧
        ∃ data, journal s' = journal s ++
          [(length (trace (world_of s)), RpcUpdate (collection_name r) doc_id data);
           (length (trace (world_of s)),
            JournalError (FailedUpdate (collection_name r) doc_id
                            (NotFound (collection_name r) doc_id)))].
Proof.
  intros Hr Hnone. rewrite (update_run _ _ _ _ _ Hr). cbn zeta.
  rewrite find_doc_existsb, Hnone, bool_decide_eq_false_2 by (intros [? [=]]).
  destruct (with_client_store (advanced (world_of s)) self r) as (Hc & _ & Ht).
  eexists. split; [done|]. simpl. rewrite Hc, Ht. split; [done|]. split; [done|].
  eexists. by rewrite <- app_assoc.
Qed.
Lemma construct_touched m (data : dict) doc_id (now : pyval) (w : world) :
  valid_record m → id_accepted (__class__ m) doc_id → stamp_accepted (__class__ m) now →
  (∀ k, k ≠ "id" → k ≠ "updated_at" → data !! k = dump_value <$> __dict__ m !! k) →
  construct (__class__ m) (<["updated_at" := now]> (<["id" := VStr doc_id]> data)) w
  = (w, Ok (touched m doc_id now)).
Proof.
  intros [Hdom Hvalid] [Hid Hidok] [Hst Hstok] Hdata. unfold touched.
  apply construct_accepted.
  - unfold accepted. rewrite Forall_forall in *. intros [f info] Hin.
    specialize (Hvalid _ Hin) as (v & Hv & Hok).
    specialize (Hidok _ Hin). specialize (Hstok _ Hin). simpl in *.
    destruct (decide (f = "updated_at")) as [->|Hne1].
    { exists now, now. rewrite !lookup_insert_eq. auto. }
    destruct (decide (f = "id")) as [->|Hne2].
    { exists (VStr doc_id), (VStr doc_id).
      rewrite !(lookup_insert_ne _ "updated_at"), !lookup_insert_eq by done. auto. }
    exists (dump_value v), v. rewrite !lookup_insert_ne by done.
    rewrite Hdata, Hv by done. auto.
  - simpl. rewrite !dom_insert_L. apply union_least; [|apply union_least; [|done]];
      apply singleton_subseteq_l; by apply elem_of_list_to_set.
Qed.

(** X15.  [update] on a stored document, with a valid record whose type
    takes the identifier and the time stamp: the result is the record
    with its [id] replaced by [doc_id] and its [updated_at] by the
    clock's reading.  The stored document keeps its identifier, gains the
    record's dumped fields and the new [updated_at], and keeps the fields
    the record does not have; its stored [id] field, if any, is not
    written.  The other documents are as before. *)
Theorem update_stamps_and_merges s self r m doc_id (old : DocumentSnapshot) :
  heap (world_of s) !! self = Some (ORepository r) → __class__ m = model_class r →
  let name := collection_name r in
  let w := world_of s in
  let now := VDatetime (utcnow (drawn w)) in
  let data := <["updated_at" := now]> (delete "id" (dump_value <$> __dict__ m)) in
  valid_record m → id_accepted (__class__ m) doc_id → stamp_accepted (__class__ m) now →
  find_doc (docs_of w name) doc_id = Some old →
  ∃ s', update self doc_id m s = (s', Done (touched m doc_id now)) ∧
        find_doc (docs_of (world_of s') name) doc_id
        = Some {| id := id old; exists_ := true; _data := data ∪ _data old |} ∧
        (∀ i, i ≠ doc_id →
           find_doc (docs_of (world_of s') name) i = find_doc (docs_of w name) i) ∧
        (∀ k, (data ∪ _data old) !! k
              = if decide (k = "id") then _data old !! "id"
                else if decide (k = "updated_at") then Some now
                else (dump_value <$> __dict__ m !! k) ∪ (_data old !! k)).
Proof.
  intros Hr Hcls name w now data Hvalid Hid Hstamp Hold.
  rewrite (update_run _ _ _ _ _ Hr). cbn zeta. fold name w now.
  rewrite _to_dict_dump. fold data.
  rewrite find_doc_existsb, Hold, bool_decide_eq_true_2 by eauto.
  rewrite <- Hcls, construct_touched; [|done..|]; cycle 1.
  { intros k _ _. by rewrite model_dump_all, lookup_fmap. }
  eexists. split; [done|].
  cbn [world_of noted on]. rewrite !docs_of_holding.
  split; [|split].
  - rewrite find_doc_merged, Hold. simpl. unfold merged.
    by rewrite (find_doc_is_document _ _ _ Hold).
  - intros i Hi. by apply find_doc_merged_other.
  - intros k. rewrite lookup_union. unfold data.
    destruct (decide (k = "id")) as [->|Hk1].
    { rewrite lookup_insert_ne, lookup_delete_eq by done. by rewrite (left_id None _). }
    destruct (decide (k = "updated_at")) as [->|Hk2].
    { rewrite lookup_insert_eq. by destruct (_data old !! "updated_at"). }
    by rewrite lookup_insert_ne, lookup_delete_ne, lookup_fmap by done.
Qed.

(** X16.  [update] does not read the record's own [id] and
    [updated_at]: whatever values they hold, the call does the same. *)
Theorem update_ignores_id_and_stamp s self r m doc_id (x y : pyval) :
  heap (world_of s) !! self = Some (ORepository r) →
  update self doc_id
    {| __class__ := __class__ m;
       __dict__ := <["updated_at" := y]> (<["id" := x]> (__dict__ m)) |} s
  = update self doc_id m s.
Proof.
  intros Hr. rewrite !(update_run _ _ _ _ _ Hr). cbn zeta.
  rewrite !_to_dict_dump, !model_dump_all. cbn [__dict__].
  set (now := VDatetime _).
  assert (<["updated_at" := now]>
            (delete "id" (dump_value <$> <["updated_at" := y]> (<["id" := x]> (__dict__ m))))
          = <["updated_at" := now]> (delete "id" (dump_value <$> __dict__ m))) as ->.
  { rewrite !fmap_insert, delete_insert_ne, delete_insert_eq by done.
    by rewrite insert_insert_eq. }
  assert (<["updated_at" := now]> (<["id" := VStr doc_id]>
            (dump_value <$> <["updated_at" := y]> (<["id" := x]> (__dict__ m))))
          = <["updated_at" := now]> (<["id" := VStr doc_id]> (dump_value <$> __dict__ m)))
    as ->; [|done].
  rewrite !fmap_insert.
  rewrite (insert_insert_ne _ "id" "updated_at") by done.
  by rewrite insert_insert_eq, insert_insert_eq.
Qed.
End UpdateFacts.

(** ** Creating: conflicts and late failures *)

Section CreateMore.
Context `{Firestore, Pydantic, Clock}.
Implicit Types (w : world) (self : loc) (r : FirestoreRepository) (m : BaseModel).

(** X17.  [create] never overwrites: when a stored document already has
    the drawn identifier, the store's [Conflict] is logged and raised
    again, and the documents of every collection are as before. *)
Theorem create_conflict w self r m (taken : DocumentSnapshot) :
  heap w !! self = Some (ORepository r) →
  find_doc (docs_of w (collection_name r)) (_auto_id (drawn w)) = Some taken →
  ∃ w', create self m w
        = (w', Raise (Conflict (collection_name r) (_auto_id (drawn w)))) ∧
        collections w' = collections w ∧
        trace w' = trace w ++
          [RpcCreate (collection_name r) (_auto_id (drawn w)) (_to_dict m);
           LogError (FailedCreate (collection_name r)
                       (Conflict (collection_name r) (_auto_id (drawn w))))].
Proof.
  intros Hr Htaken. rewrite (create_run _ _ _ _ Hr). cbn zeta.
  rewrite Htaken, bool_decide_eq_true_2 by eauto.
  destruct (with_client_store w self r) as (Hc & _ & Ht).
  eexists. split; [done|]. simpl. by rewrite Hc, Ht, <- app_assoc.
Qed.

(** X18.  [create] writes before it builds its result.  When the model
    class refuses the fields with the drawn identifier, the call logs and
    raises that error, yet the document has been written and stays in the
    collection. *)
Theorem create_failure_leaves_document w self r m (e : exn) :
  heap w !! self = Some (ORepository r) →
  let name := collection_name r in
  let doc_id := _auto_id (drawn w) in
  let stored := {| id := doc_id; exists_ := true; _data := _to_dict m |} in
  find_doc (docs_of w name) doc_id = None →
  (∀ w1, (construct (model_class r) (<["id" := VStr doc_id]> (model_dump m ∅)) w1).2
         = Raise e) →
  ∃ w', create self m w = (w', Raise e) ∧
        docs_of w' name = docs_of w name ++ [stored] ∧
        find_doc (docs_of w' name) doc_id = Some stored.
Proof.
  intros Hr name doc_id stored Hfresh Hfail.
  rewrite (create_run _ _ _ _ Hr). cbn zeta. fold name doc_id.
  rewrite Hfresh, bool_decide_eq_false_2 by (intros [? [=]]).
  match goal with |- context [construct ?c ?d ?w1] =>
    pose proof (Hfail w1) as Hf;
    pose proof (keeps_construct collections (λ _, eq_refl) c d w1) as Hk;
    destruct (construct c d w1) as [w2 [result|e']] end; simpl in Hf, Hk; [done|].
  injection Hf as ->.
  destruct (with_client_store w self r) as (Hc & _ & _).
  assert (docs_of (logged (LogError (FailedCreate name e)) w2) name
          = docs_of w name ++ [stored]) as Hdocs.
  { unfold docs_of at 1. simpl. rewrite Hk. unfold written. simpl.
    rewrite lookup_insert_eq. simpl. unfold docs_of. simpl. by rewrite Hc. }
  eexists. split; [done|]. split; [done|].
  rewrite Hdocs. by apply find_doc_appended.
Qed.
End CreateMore.

(** ** Finding through the builder *)

Section Blindness.
Context `{Firestore, Pydantic, Clock}.
Implicit Types (w : world) (self : loc).

Lemma blind_ret {A} self (a : A) : blind self (mret a).
Proof. by intros w1 w2 Hw. Qed.

Lemma blind_throw {A} self (e : exn) : blind self (mthrow (M := M) (A := A) e).
Proof. by intros w1 w2 Hw. Qed.

Lemma blind_bind {A B} self (m : M A) (k : A → M B) :
  blind self m → (∀ a, blind self (k a)) → blind self (m ≫= k).
Proof.
  intros Hm Hk w1 w2 Hw. destruct (Hm w1 w2 Hw) as [Hres Hw']. unfold mbind, M_bind.
  destruct (m w1) as [w1' [a|e]], (m w2) as [w2' [a'|e']]; simplify_eq/=; [|done].
  by apply Hk.
Qed.

Lemma blind_draw self : blind self draw.
Proof.
  intros w1 w2 [Hd Hr]. unfold draw. simpl. split; [by rewrite Hd|].
  split; [simpl; by rewrite Hd | done].
Qed.

Lemma blind_validate_fields self (fs : list (string * FieldInfo)) (data : dict) :
  blind self (validate_fields fs data).
Proof.
  induction fs as [|[field info] fs IH]; [apply blind_ret|]. simpl.
  apply blind_bind.
  - destruct (data !! field); [destruct (validate_field _ _); apply blind_ret|].
    destruct (default_ info); try apply blind_ret.
    apply blind_bind; [apply blind_draw | intros; apply blind_ret].
  - intros r. apply blind_bind; [done | intros; apply blind_ret].
Qed.

Lemma blind_construct self (cls : ModelClass) (data : dict) :
  blind self (construct cls data).
Proof.
  unfold construct. apply blind_bind; [apply blind_validate_fields|].
  intros r. destruct (r.1); [apply blind_ret | apply blind_throw].
Qed.

Lemma blind__from_dict self (data : option dict) (doc_id : string) :
  blind self (_from_dict self data doc_id).
Proof.
  intros w1 w2 Hw. destruct Hw as [Hd (r1 & r2 & Hr1 & Hr2 & Hmc)].
  rewrite (_from_dict_run _ _ _ _ _ Hr1), (_from_dict_run _ _ _ _ _ Hr2), Hmc.
  apply blind_construct. split; [done|]. by exists r1, r2.
Qed.

Lemma blind_mapM {A B} self (g : A → M B) (l : list A) :
  (∀ a, blind self (g a)) → blind self (mapM g l).
Proof.
  intros Hg. induction l as [|a l IH]; [apply blind_ret|].
  rewrite mapM_cons. apply blind_bind; [done|]. intros b.
  apply blind_bind; [done|]. intros bs. apply blind_ret.
Qed.

Lemma logging_errors_outcome {A} describe (body : M A) w :
  (logging_errors describe body w).2 = (body w).2.
Proof. unfold logging_errors. by destruct (body w) as [? [?|?]]. Qed.

(** X19.  Finding through the builder.  On a builder bound to the
    repository's bare collection, [where] with the operator [==]
    followed by [query] has the outcome of [find_by_field] on the same
    field name and value: the same records in the same order, or the
    same error. *)
Theorem query_where_is_find_by_field w self (builder : loc) (r : FirestoreRepository)
    (b : FirestoreQueryBuilder) (field : FieldPath) (v : pyval) :
  heap w !! self = Some (ORepository r) →
  heap w !! builder = Some (OBuilder b) →
  bound_query w b = Some (collection_query (collection_name r)) →
  isinstance v (type_ field) = Ok true →
  outcome_of ((b1 ← where_ builder field "==" v; query self b1) w).2
  = (find_by_field self (name field) v (opening w)).2.
Proof.
  intros Hr Hb Hq Hi.
  set (F := {| field_path := name field; op_string := "=="; value := v |}).
  unfold find_by_field.
  erewrite session_bind_done by (apply earlier_ok; by apply the_repository_ok).
  assert (∀ body : N (list BaseModel), (noting_errors
            (FailedFind (collection_name r) (name field)) body
            (on w (opening w))).2 = (body (on w (opening w))).2) as ->.
  { intros body. unfold noting_errors. by destruct (body _) as [? [?|?]]. }
  erewrite earlier_bind by by apply collection_ok.
  fold F. destruct (filter_accepted F) eqn:Hf.
  - erewrite bind_ok by by apply where_ok. fold F.
    set (q := Build_Query _ _ _ _). set (w1 := rebound w builder b q).
    assert (Hne : builder ≠ self) by (intros ->; congruence).
    assert (Hr1 : heap w1 !! self = Some (ORepository r)).
    { unfold w1. rewrite rebound_frame; [done | done | eauto]. }
    assert (Hb1 : heap w1 !! builder = Some (OBuilder
              {| _query := fresh (dom (heap w)); fields := fields b |}))
      by apply rebound_builder.
    assert (Hq1 : bound_query w1 {| _query := fresh (dom (heap w)); fields := fields b |}
                  = Some q) by by apply rebound_bound.
    unfold query. erewrite bind_ok by by apply the_repository_ok.
    rewrite logging_errors_outcome. unfold execute.
    erewrite bind_ok by by apply build_ok.
    erewrite bind_ok by by apply the_query_ok.
    assert (Hsel : ∀ w', collections w' = collections w →
              select q (docs_of w' (_parent q))
              = Ok (passing [F] (docs_of w (collection_name r)))).
    { intros w' Hc. unfold docs_of. by rewrite Hc. }
    erewrite bind_ok by (apply stream_ok; by apply Hsel).
    erewrite earlier_bind; cycle 1.
    { rewrite lift_run. unfold Query_where. fold F. by rewrite Hf. }
    erewrite earlier_bind; cycle 1.
    { apply stream_ok. apply Hsel. apply with_client_store. }
    unfold earlier. cbn [snd world_of on]. rewrite !decoded_filter. f_equal.
    refine (proj1 (blind_mapM self _ _ _ _ _ _)); [intros doc; apply blind__from_dict|].
    destruct (with_client_connected _ _ _ Hr) as (r' & Hr' & _ & Hmc & _).
    split; [simpl; by destruct (with_client_store w self r) as (_ & -> & _)|].
    by exists r, r'.
  - erewrite bind_raise; cycle 1.
    { unfold where_. erewrite bind_ok by (rewrite lift_run; by rewrite Hi). cbn [negb].
      erewrite bind_ok by by apply the_builder_ok.
      erewrite bind_ok by by apply the_query_ok.
      apply bind_raise. rewrite lift_run. unfold Query_where, FieldPath__str__.
      fold F. by rewrite Hf. }
    erewrite earlier_bind_raise; [done|].
    rewrite lift_run. unfold Query_where. fold F. by rewrite Hf.
Qed.
End Blindness.

(** ** Scenarios for the further properties *)

Section MoreScenarios.
#[local] Existing Instances demo_store demo_pydantic demo_clock.
#[local] Existing Instance demo_python.

Lemma failed_builder_call_changes_nothing_witness :
  (order_by 2 nameField "SIDEWAYS" w0).1 = w0.
Proof.
  exact (proj1 (proj2 (failed_builder_call_changes_nothing w0 _ 2 nameField "=="
                         "SIDEWAYS" VNone 0 (ValueError "order"))) eq_refl).
Defined.

Lemma limit_last_wins_witness :
  ∃ w2 b2, (b1 ← limit 2 5; limit b1 2) w0 = (w2, Ok 2%positive) ∧
           heap w2 !! 2%positive = Some (OBuilder b2) ∧
           bound_query w2 b2 = Some (Query_limit (collection_query "users") 2).
Proof.
  apply (limit_last_wins w0 2 users_builder (collection_query "users") 5 2); reflexivity.
Defined.

Lemma where_and_limit_commute_witness :
  ∃ wa ba wb bb q',
    (b1 ← where_ 2 ageField ">=" (VInt 18); limit b1 10) w0 = (wa, Ok 2%positive) ∧
    (b1 ← limit 2 10; where_ b1 ageField ">=" (VInt 18)) w0 = (wb, Ok 2%positive) ∧
    heap wa !! 2%positive = Some (OBuilder ba) ∧ heap wb !! 2%positive = Some (OBuilder bb) ∧
    bound_query wa ba = Some q' ∧ bound_query wb bb = Some q' ∧
    _field_filters q' = [] ++ [the_filter] ∧ _limit q' = Some 10.
Proof.
  apply (where_and_limit_commute w0 2 users_builder (collection_query "users")
           ageField ">=" (VInt 18) 10); reflexivity.
Defined.


Lemma query_scans_builder_witness :
  query 3 2 w0
  = logging_errors (FailedQuery "users")
      (mapM (λ doc, _from_dict 3 (to_dict doc) (id doc)) (List.filter nonempty users))
      (logged (RpcStream (collection_query "users")) w0).
Proof.
  apply (query_scans_builder w0 3 2 users_repository users_builder
           (collection_query "users") users); reflexivity.
Defined.

Lemma Deployment_fields_distinct : NoDup (model_fields Deployment).*1.
Proof. apply (bool_decide_unpack _). by vm_compute. Qed.

Lemma model_class_field_shadows_witness :
  getattr (FieldRef__init__ Deployment) "zip"
  = Raise (AttributeError (MsgNoAttribute "FieldPath" "__name__")).
Proof.
  apply (model_class_field_shadows Deployment "zip" Deployment_fields_distinct);
    [apply (bool_decide_unpack _); by vm_compute..|reflexivity].
Defined.

Lemma fresh_builder_scans_collection_witness :
  ∃ self w1,
    FirestoreQueryBuilder__init__ 1 (FieldRef__init__ User) w0 = (w1, Ok self) ∧
    heap w0 !! self = None ∧
    build self w1 = (w1, Ok 1%positive) ∧
    execute self summary w1
    = mapM (λ doc, summary (to_dict doc) (id doc))
        (List.filter nonempty (docs_of w0 "users"))
        (logged (RpcStream (collection_query "users")) w1).
Proof.
  apply (fresh_builder_scans_collection w0 1 "users" (FieldRef__init__ User) summary).
  reflexivity.
Defined.

Lemma find_by_fields_scans_witness :
  find_by_fields 3 by_name (opening w0)
  = noting_errors (λ _, FailedFindFields "users" by_name)
      (earlier (mapM (λ doc, _from_dict 3 (to_dict doc) (id doc))
                  (List.filter nonempty (passing (equality_filters by_name) users))))
      (on (logged (RpcStream {| _parent := "users";
                                _field_filters := equality_filters by_name;
                                _orders := []; _limit := None |})
             w0_connected) (opening w0)).
Proof.
  apply (find_by_fields_scans (opening w0) 3 users_repository by_name eq_refl).
  repeat constructor.
Defined.

(** One document is called Ann; an empty document passes no equality
    filter, so nothing fails to decode. *)
Example find_by_field_scenario :
  (find_by_field 3 "name" (VStr "Ann") (opening w0)).2
  = Done [{| __class__ := User;
             __dict__ := list_to_map
               [("id", VStr "u1"); ("created_at", VDatetime 1);
                ("updated_at", VDatetime 2); ("name", VStr "Ann");
                ("age", VInt 41); ("nickname", VNone); ("payload", VNone)] |}].
Proof. by vm_compute. Qed.

Lemma delete_removes_document_witness :
  ∃ s', delete_ 3 "u1" (opening w0) = (s', Done true) ∧
        docs_of (world_of s') "users"
        = List.filter (λ d, negb (bool_decide (id d = "u1"))) users.
Proof.
  destruct (delete_removes_document (opening w0) 3 users_repository "u1" eq_refl)
    as (s' & Hrun & Hdocs & _).
  exists s'. by split.
Defined.

Lemma update_missing_document_witness :
  ∃ s', update 3 "nobody" alice (opening w0) = (s', Failed (NotFound "users" "nobody")) ∧
        collections (world_of s') = collections w0.
Proof.
  destruct (update_missing_document (opening w0) 3 users_repository alice "nobody"
              eq_refl eq_refl) as (s' & Hrun & Hc & _).
  exists s'. by split.
Defined.

Lemma User_takes_stamp (t : Z) : stamp_accepted User (VDatetime t).
Proof.
  split.
  - apply (bool_decide_unpack _). by vm_compute.
  - repeat (constructor; [by intros|]). constructor.
Qed.

Lemma update_stamps_and_merges_witness :
  ∃ s', update 3 "u1" alice (opening w0) = (s', Done (touched alice "u1" (VDatetime 0))).
Proof.
  destruct (update_stamps_and_merges (opening w0) 3 users_repository alice "u1"
              (snapshot "u1" [("name", VStr "Ann"); ("age", VInt 41);
                              ("created_at", VDatetime 1); ("updated_at", VDatetime 2)])
              eq_refl eq_refl alice_valid (User_takes_string_id _) (User_takes_stamp _)
              eq_refl) as (s' & Hrun & _).
  by exists s'.
Defined.

Lemma update_ignores_id_and_stamp_witness :
  update 3 "u1"
    {| __class__ := User;
       __dict__ := <["updated_at" := VNone]> (<["id" := VInt 7]> (__dict__ alice)) |}
    (opening w0)
  = update 3 "u1" alice (opening w0).
Proof.
  exact (update_ignores_id_and_stamp (opening w0) 3 users_repository alice "u1"
           (VInt 7) VNone eq_refl).
Defined.
Lemma create_conflict_witness :
  ∃ w', create 3 alice w_taken = (w', Raise (Conflict "users" "auto0")) ∧
        collections w' = collections w_taken.
Proof.
  assert (find_doc (docs_of w_taken "users") (_auto_id (drawn w_taken))
          = Some (snapshot "auto0" [("name", VStr "Eve")])) as Htaken
    by (vm_compute; reflexivity).
  destruct (create_conflict w_taken 3 users_repository alice _ eq_refl Htaken)
    as (w' & Hrun & Hc & _).
  exists w'. by split.
Defined.

Lemma create_failure_leaves_document_witness :
  ∃ w', create 4 counter w_counters
        = (w', Raise (ValidationError "Counter" [Invalid "id" (VStr "auto0")])) ∧
        docs_of w' "counters" = [{| id := "auto0"; exists_ := true; _data := _to_dict counter |}].
Proof.
  assert (∀ w1, (construct Counter
                   (<["id" := VStr (_auto_id (drawn w_counters))]> (model_dump counter ∅))
                   w1).2
                = Raise (ValidationError "Counter" [Invalid "id" (VStr "auto0")])) as Hfail
    by (intros w1; vm_compute; reflexivity).
  destruct (create_failure_leaves_document w_counters 4 counters_repository counter
              _ eq_refl eq_refl Hfail)
    as (w' & Hrun & Hdocs & _).
  exists w'. split; [exact Hrun|]. etrans; [exact Hdocs|]. vm_compute. reflexivity.
Defined.
Lemma query_where_is_find_by_field_witness :
  outcome_of ((b1 ← where_ 2 nameField "==" (VStr "Ann"); query 3 b1) w0).2
  = (find_by_field 3 "name" (VStr "Ann") (opening w0)).2.
Proof.
  exact (query_where_is_find_by_field w0 3 2 users_repository users_builder nameField
           (VStr "Ann") eq_refl eq_refl eq_refl eq_refl).
Defined.
End MoreScenarios.
